(** * hybrid_hook.h: detour and virtual-table hooks over an external patch engine

    A shallow embedding of [src/internal_hvh/misc/hybrid_hook.h].  The three
    classes of the header ([c_hook], [c_detour], [c_vtable_hook]) become
    records and functions that thread the process state ([world]) explicitly.
    The patch engine (PolyHook2, namespace [PLH]) is not part of the
    repository; module [PLH] models the capability the header consumes. *)

From stdpp Require Import base numbers option list gmap fin_maps.

Local Open Scope Z_scope.

(** ** Fixed-width casts

    [uintptr_t] is 32 bits wide (the header's [static_assert] pins the size
    of a pointer to 4 bytes); the engine takes 64-bit addresses and 16-bit
    slot numbers. *)

Definition u16 (z : Z) : Z := z mod 2 ^ 16.
Definition u32 (z : Z) : Z := z mod 2 ^ 32.
Definition u64 (z : Z) : Z := z mod 2 ^ 64.

(** ** The process state

    [vptrs] maps the address of an object to the address of its dispatch
    table (the word stored at offset 0 of the object); [tables] maps the
    address of a live dispatch table to its slots.  Code memory is not
    modelled: what the detour engine is asked to do to it is recorded in
    [journal]. *)

Inductive engine_event : Type :=
  | ev_hook (fnAddress fnCallback : Z) (committed : bool)
  | ev_unHook (fnAddress fnCallback : Z).

Record world : Type := World {
  vptrs : gmap Z Z;
  tables : gmap Z (list Z);
  journal : list engine_event
}.

Definition set_tables (f : gmap Z (list Z) → gmap Z (list Z)) (w : world) : world :=
  {| vptrs := vptrs w; tables := f (tables w); journal := journal w |}.

Definition set_vptrs (f : gmap Z Z → gmap Z Z) (w : world) : world :=
  {| vptrs := f (vptrs w); tables := tables w; journal := journal w |}.

Definition record_event (e : engine_event) (w : world) : world :=
  {| vptrs := vptrs w; tables := tables w; journal := journal w ++ [e] |}.

(** The slot [index] of the table an object points to: undefined ([None]) when the
    object, its table or the slot is not there. *)
Definition read_slot (w : world) (instance index : Z) : option Z :=
  tp ← vptrs w !! instance;
  T ← tables w !! tp;
  T !! Z.to_nat index.

(** What the engine answers to one [hook()] call: its boolean result and the
    value it leaves in the caller's trampoline cell. *)
Record verdict : Type := Verdict { hooked : bool; tramp : Z }.

(** ** The patch engine *)

Module PLH.

(** Modelled from the spec: [PLH::x86Detour] is declared in
    [polyhook2/Detour/x86Detour.hpp], which is not in the repository.  A
    session remembers the two addresses it was built from; [hook] commits
    the redirect of [fnAddress] to [fnCallback] or refuses, as the engine
    decides, and hands back a trampoline; [unHook] undoes it. *)
Record x86Detour : Type := X86Detour { fnAddress : Z; fnCallback : Z }.

Definition x86Detour_hook (r : verdict) (s : x86Detour) (w : world)
  : bool * Z * world :=
  (hooked r, tramp r,
   record_event (ev_hook (fnAddress s) (fnCallback s) (hooked r)) w).

Definition x86Detour_unHook (s : x86Detour) (w : world) : world :=
  record_event (ev_unHook (fnAddress s) (fnCallback s)) w.

(** Modelled from the spec: [PLH::VFuncSwapHook] is declared in
    [polyhook2/Virtuals/VFuncSwapHook.hpp], which is not in the repository.
    [hook] overwrites exactly one slot of the table in place and remembers
    what the slot held; [unHook] writes the remembered value back. *)
Record VFuncSwapHook : Type := VFuncSwap {
  vf_table : Z;
  vf_index : Z;
  vf_replacement : Z;
  vf_saved : option Z
}.

Definition VFuncSwapHook_hook (ok : bool) (h : VFuncSwapHook) (w : world)
  : bool * VFuncSwapHook * world :=
  if ok then
    match tables w !! vf_table h with
    | Some T =>
        match T !! Z.to_nat (vf_index h) with
        | Some old =>
            (true,
             VFuncSwap (vf_table h) (vf_index h) (vf_replacement h) (Some old),
             set_tables
               (insert (vf_table h)
                  (<[Z.to_nat (vf_index h) := vf_replacement h]> T)) w)
        | None => (false, h, w)
        end
    | None => (false, h, w)
    end
  else (false, h, w).

Definition VFuncSwapHook_unHook (h : VFuncSwapHook) (w : world) : world :=
  match vf_saved h, tables w !! vf_table h with
  | Some old, Some T =>
      set_tables (insert (vf_table h) (<[Z.to_nat (vf_index h) := old]> T)) w
  | _, _ => w
  end.

(** Modelled from the spec: [PLH::VTableSwapHook] is declared in
    [polyhook2/Virtuals/VTableSwapHook.hpp], which is not in the
    repository.  [hook] allocates a duplicate of the whole table, overwrites
    the duplicate's slot and repoints the object to the duplicate; [unHook]
    repoints the object to the table it had when [hook] ran and frees the
    duplicate. *)
Record VTableSwapHook : Type := VTableSwap {
  vt_instance : Z;
  vt_index : Z;
  vt_replacement : Z;
  vt_orig : option Z;
  vt_clone : option Z
}.

Definition fresh_table (w : world) : Z :=
  fresh ({[0]} ∪ dom (tables w) ∪ dom (vptrs w)).

Definition VTableSwapHook_hook (ok : bool) (h : VTableSwapHook) (w : world)
  : bool * VTableSwapHook * world :=
  if ok then
    match vptrs w !! vt_instance h with
    | Some tp =>
        match tables w !! tp with
        | Some T =>
            if decide (Z.to_nat (vt_index h) < length T)%nat then
              let c := fresh_table w in
              (true,
               VTableSwap (vt_instance h) (vt_index h) (vt_replacement h)
                 (Some tp) (Some c),
               set_vptrs (insert (vt_instance h) c)
                 (set_tables
                    (insert c (<[Z.to_nat (vt_index h) := vt_replacement h]> T))
                    w))
            else (false, h, w)
        | None => (false, h, w)
        end
    | None => (false, h, w)
    end
  else (false, h, w).

Definition VTableSwapHook_unHook (h : VTableSwapHook) (w : world) : world :=
  match vt_orig h, vt_clone h with
  | Some tp, Some c =>
      set_vptrs (insert (vt_instance h) tp) (set_tables (delete c) w)
  | _, _ => w
  end.

End PLH.

(** ** class c_hook: the defaults of the base class *)

Module c_hook.

(** [virtual uintptr_t apply(uintptr_t) { return 0; }] *)
Definition apply {H : Type} (_ : Z) (self : H) (w : world) : Z * H * world :=
  (0, self, w).

(** [virtual uintptr_t apply(uint32_t, uintptr_t) { return 0; }] *)
Definition apply_index {H : Type} (_ _ : Z) (self : H) (w : world)
  : Z * H * world :=
  (0, self, w).

Definition is_detour {H : Type} (_ : H) : bool := false.

End c_hook.

(** ** class c_detour *)

Module c_detour.

Record t : Type := Build {
  m_src : Z;
  m_trampoline : Z;
  m_detour : option PLH.x86Detour
}.

(** [c_detour() = default] and [explicit c_detour(address_t src)]. *)
Definition default : t := Build 0 0 None.
Definition make (src : Z) : t := Build src 0 None.

Definition is_detour (_ : t) : bool := true.

(** [address_t apply(address_t dest)] *)
Definition apply (r : verdict) (dest : Z) (d : t) (w : world) : Z * t * world :=
  match m_detour d with
  | Some _ => (u32 (m_trampoline d), d, w)
  | None =>
      if bool_decide (m_src d = 0) || bool_decide (dest = 0) then (0, d, w)
      else
        let session := PLH.X86Detour (u64 (m_src d)) (u64 dest) in
        let '(ok, trampoline, w') := PLH.x86Detour_hook r session w in
        if ok then
          (u32 trampoline, Build (m_src d) trampoline (Some session), w')
        else (0, Build (m_src d) 0 None, w')
  end.

(** [template <typename Fn> Fn original() const] *)
Definition original (d : t) : Z := u32 (m_trampoline d).

(** [void unhook()] *)
Definition unhook (d : t) (w : world) : t * world :=
  match m_detour d with
  | Some session =>
      (Build (m_src d) 0 None, PLH.x86Detour_unHook session w)
  | None => (d, w)
  end.

Definition src (d : t) : Z := m_src d.

(** [address_t apply(const uint32_t, address_t) override { return 0; }] *)
Definition apply_index (_ _ : Z) (d : t) (w : world) : Z * t * world :=
  (0, d, w).

End c_detour.

(** ** class c_vtable_hook *)

Module c_vtable_hook.

Inductive mode : Type := vfunc_swap | vtable_swap.

Record HookEntry : Type := Entry {
  index : Z;
  original : Z;
  vfunc : option PLH.VFuncSwapHook;
  vtable : option PLH.VTableSwapHook
}.

Record t : Type := Build {
  m_instance : Z;
  m_mode : mode;
  m_hooks : list HookEntry
}.

(** [explicit c_vtable_hook(uintptr_t instance, mode m = mode::vfunc_swap)] *)
Definition make (instance : Z) (m : mode) : t := Build instance m [].

Definition emplace_back (e : HookEntry) (h : t) : t :=
  Build (m_instance h) (m_mode h) (m_hooks h ++ [e]).

(** [uintptr_t apply(uint32_t index, uintptr_t replacement)].  [ok] is the
    engine's decision for the [hook()] call the body makes; [None] is a read
    outside any live object. *)
Definition apply (ok : bool) (index replacement : Z) (h : t) (w : world)
  : option (Z * t * world) :=
  if bool_decide (m_instance h = 0) then Some (0, h, w)
  else
    vt ← vptrs w !! m_instance h;
    T ← tables w !! vt;
    original ← T !! Z.to_nat index;
    match m_mode h with
    | vfunc_swap =>
        let hook := PLH.VFuncSwap vt (u16 index) (u64 replacement) None in
        let '(committed, hook', w') := PLH.VFuncSwapHook_hook ok hook w in
        if committed then
          Some (original,
                emplace_back (Entry index original (Some hook') None) h, w')
        else Some (0, h, w')
    | vtable_swap =>
        let hook :=
          PLH.VTableSwap (u64 (m_instance h)) (u16 index) (u64 replacement)
            None None in
        let '(committed, hook', w') := PLH.VTableSwapHook_hook ok hook w in
        if committed then
          Some (original,
                emplace_back (Entry index original None (Some hook')) h, w')
        else Some (0, h, w')
    end.

(** The body of the range-for of [unhook_all], for one entry. *)
Definition unhook_entry (e : HookEntry) (w : world) : world :=
  let w1 :=
    match vfunc e with Some hk => PLH.VFuncSwapHook_unHook hk w | None => w end in
  match vtable e with Some hk => PLH.VTableSwapHook_unHook hk w1 | None => w1 end.

(** [for (auto& e : m_hooks) ...]: from the front of the vector to its back. *)
Fixpoint unhook_loop (es : list HookEntry) (w : world) : world :=
  match es with
  | [] => w
  | e :: es' => unhook_loop es' (unhook_entry e w)
  end.

(** [void unhook_all()] *)
Definition unhook_all (h : t) (w : world) : t * world :=
  (Build (m_instance h) (m_mode h) [], unhook_loop (m_hooks h) w).

Definition is_detour (_ : t) : bool := false.

End c_vtable_hook.

(** ** Virtual dispatch through a [c_hook] pointer

    A [c_hook*] points to a [c_detour] or to a [c_vtable_hook]; a call through
    it runs the final overrider of the dynamic type.  [c_detour] overrides
    both [apply] overloads and [is_detour]; [c_vtable_hook] overrides the
    two-argument [apply] and [is_detour] and inherits the one-argument
    [apply] of [c_hook]. *)

Inductive hook : Type :=
  | Detour (d : c_detour.t)
  | VtableHook (v : c_vtable_hook.t).

Definition lift {H : Type} (inj : H → hook) (r : Z * H * world)
  : option (Z * hook * world) :=
  Some (r.1.1, inj r.1.2, r.2).

Definition hook_apply (r : verdict) (a : Z) (h : hook) (w : world)
  : option (Z * hook * world) :=
  match h with
  | Detour d => lift Detour (c_detour.apply r a d w)
  | VtableHook v => lift VtableHook (c_hook.apply a v w)
  end.

Definition hook_apply_index (r : verdict) (i a : Z) (h : hook) (w : world)
  : option (Z * hook * world) :=
  match h with
  | Detour d => lift Detour (c_detour.apply_index i a d w)
  | VtableHook v =>
      res ← c_vtable_hook.apply (hooked r) i a v w;
      lift VtableHook res
  end.

Definition hook_is_detour (h : hook) : bool :=
  match h with
  | Detour d => c_detour.is_detour d
  | VtableHook v => c_vtable_hook.is_detour v
  end.

(** ** Histories of a detour

    The calls a client can make on a [c_detour] after constructing it (the
    destructor is [unhook]), and the state they lead to. *)

Inductive detour_call : Type :=
  | call_apply (r : verdict) (dest : Z)
  | call_apply_index (i dest : Z)
  | call_unhook.

Definition detour_step (s : c_detour.t * world) (c : detour_call)
  : c_detour.t * world :=
  match c with
  | call_apply r dest => let '(_, d, w) := c_detour.apply r dest s.1 s.2 in (d, w)
  | call_apply_index i dest =>
      let '(_, d, w) := c_detour.apply_index i dest s.1 s.2 in (d, w)
  | call_unhook => c_detour.unhook s.1 s.2
  end.

Definition detour_run (cs : list detour_call) (s : c_detour.t * world)
  : c_detour.t * world :=
  foldl detour_step s cs.

(** The number of redirects the engine has committed so far. *)
Definition is_commit (e : engine_event) : bool :=
  match e with ev_hook _ _ ok => ok | ev_unHook _ _ => false end.

Definition commits (w : world) : nat := length (filter is_commit (journal w)).

(** [trampoline_address != 0] iff [patch_state] is present. *)
Definition installed_invariant (d : c_detour.t) : Prop :=
  c_detour.m_trampoline d ≠ 0 ↔ is_Some (c_detour.m_detour d).

(** What the engine promises about a committed detour: the trampoline it
    hands back is a callable address, hence not null. *)
Definition trampoline_contract (r : verdict) : Prop :=
  hooked r = true → tramp r ≠ 0.

Definition call_contract (c : detour_call) : Prop :=
  match c with
  | call_apply r _ => trampoline_contract r
  | _ => True
  end.

(** ** Histories of a vtable hook: a run of installs, every one of which the
    engine commits. *)

Fixpoint install_all (reqs : list (Z * Z)) (h : c_vtable_hook.t) (w : world)
  : option (list Z * c_vtable_hook.t * world) :=
  match reqs with
  | [] => Some ([], h, w)
  | req :: reqs' =>
      match c_vtable_hook.apply true req.1 req.2 h w with
      | Some (o, h1, w1) =>
          match install_all reqs' h1 w1 with
          | Some (os, h2, w2) => Some (o :: os, h2, w2)
          | None => None
          end
      | None => None
      end
  end.

(** ** Bookkeeping for single-slot swaps

    [remembers vt T0 e]: the entry [e] owns a single-slot handle on the table
    at [vt], for a slot number the engine can address, and the handle
    remembers what [T0] holds in that slot.  [swapped es p]: some entry of
    [es] owns a single-slot handle for slot [p]. *)

Definition remembers (vt : Z) (T0 : list Z) (e : c_vtable_hook.HookEntry) : Prop :=
  c_vtable_hook.vtable e = None ∧
  ∃ hk old,
    c_vtable_hook.vfunc e = Some hk ∧
    PLH.vf_table hk = vt ∧
    0 ≤ PLH.vf_index hk < 2 ^ 16 ∧
    PLH.vf_saved hk = Some old ∧
    T0 !! Z.to_nat (PLH.vf_index hk) = Some old.

Definition swapped (es : list c_vtable_hook.HookEntry) (p : nat) : Prop :=
  ∃ e hk,
    e ∈ es ∧ c_vtable_hook.vfunc e = Some hk ∧ Z.to_nat (PLH.vf_index hk) = p.

(** ** Further bookkeeping: released sessions, typed calls, histories of a
    vtable hook *)

Definition is_release (e : engine_event) : bool :=
  match e with ev_hook _ _ _ => false | ev_unHook _ _ => true end.

(** The number of sessions the engine has been asked to undo so far. *)
Definition releases (w : world) : nat := length (filter is_release (journal w)).

(** The number of engine sessions a detour holds: one or none. *)
Definition sessions_held (d : c_detour.t) : nat :=
  match c_detour.m_detour d with Some _ => 1%nat | None => 0%nat end.

(** The two addresses an engine call was made with. *)
Definition event_addresses (e : engine_event) : Z * Z :=
  match e with
  | ev_hook a b _ => (a, b)
  | ev_unHook a b => (a, b)
  end.

(** A call whose address argument is a [uintptr_t]. *)
Definition call_typed (c : detour_call) : Prop :=
  match c with
  | call_apply _ dest => 0 ≤ dest < 2 ^ 32
  | call_apply_index _ dest => 0 ≤ dest < 2 ^ 32
  | call_unhook => True
  end.

(** The calls a client can make on a [c_vtable_hook] after constructing it
    (the destructor is [unhook_all]); a history stops at the first read
    outside a live object. *)
Inductive vtable_call : Type :=
  | vcall_apply (ok : bool) (index replacement : Z)
  | vcall_unhook_all.

Definition vtable_step (s : option (c_vtable_hook.t * world)) (c : vtable_call)
  : option (c_vtable_hook.t * world) :=
  match s with
  | Some (h, w) =>
      match c with
      | vcall_apply ok index replacement =>
          match c_vtable_hook.apply ok index replacement h w with
          | Some (_, h', w') => Some (h', w')
          | None => None
          end
      | vcall_unhook_all => Some (c_vtable_hook.unhook_all h w)
      end
  | None => None
  end.

Definition vtable_run (cs : list vtable_call) (s : c_vtable_hook.t * world)
  : option (c_vtable_hook.t * world) :=
  foldl vtable_step (Some s) cs.

(** An entry that holds the handle of mode [m] and no other. *)
Definition entry_fits (m : c_vtable_hook.mode) (e : c_vtable_hook.HookEntry)
  : Prop :=
  match m with
  | c_vtable_hook.vfunc_swap =>
      is_Some (c_vtable_hook.vfunc e) ∧ c_vtable_hook.vtable e = None
  | c_vtable_hook.vtable_swap =>
      c_vtable_hook.vfunc e = None ∧ is_Some (c_vtable_hook.vtable e)
  end.

(** * Properties of [c_detour] *)

Section detour.

Implicit Types (d : c_detour.t) (w : world) (r : verdict) (dest : Z).

Lemma apply_installed r dest d w :
  is_Some (c_detour.m_detour d) →
  c_detour.apply r dest d w = (u32 (c_detour.m_trampoline d), d, w).
Proof. intros [s Hs]. unfold c_detour.apply. by rewrite Hs. Qed.

Lemma apply_null r dest d w :
  c_detour.m_detour d = None →
  c_detour.m_src d = 0 ∨ dest = 0 →
  c_detour.apply r dest d w = (0, d, w).
Proof.
  intros Hd Hz. unfold c_detour.apply. rewrite Hd.
  destruct Hz as [Hz | Hz].
  - by rewrite (bool_decide_eq_true_2 _ Hz).
  - by rewrite (bool_decide_eq_true_2 _ Hz), orb_true_r.
Qed.

Lemma apply_commit r dest d w :
  c_detour.m_detour d = None → c_detour.m_src d ≠ 0 → dest ≠ 0 →
  c_detour.apply r dest d w =
    let s := PLH.X86Detour (u64 (c_detour.m_src d)) (u64 dest) in
    let w' :=
      record_event (ev_hook (u64 (c_detour.m_src d)) (u64 dest) (hooked r)) w in
    if hooked r
    then (u32 (tramp r), c_detour.Build (c_detour.m_src d) (tramp r) (Some s), w')
    else (0, c_detour.Build (c_detour.m_src d) 0 None, w').
Proof.
  intros Hd Hs Hn. unfold c_detour.apply. rewrite Hd.
  rewrite !bool_decide_eq_false_2 by done. simpl.
  by destruct (hooked r).
Qed.

Lemma commits_record e w :
  commits (record_event e w) = (commits w + (if is_commit e then 1 else 0))%nat.
Proof.
  unfold commits, record_event. cbn [journal].
  rewrite filter_app, length_app.
  destruct (is_commit e) eqn:He.
  - rewrite filter_cons_True by (by rewrite He). done.
  - rewrite filter_cons_False by (rewrite He; by intros []). simpl. lia.
Qed.

(** Each call keeps the source address, keeps "no session, hence no
    trampoline", and under the engine's contract keeps the invariant. *)
Lemma step_src s c : c_detour.m_src (detour_step s c).1 = c_detour.m_src s.1.
Proof.
  destruct s as [d w], c as [r dest | i dest |]; simpl.
  - unfold c_detour.apply.
    destruct (c_detour.m_detour d); [done |].
    destruct (_ || _); [done |].
    unfold PLH.x86Detour_hook. by destruct (hooked r).
  - done.
  - unfold c_detour.unhook. by destruct (c_detour.m_detour d).
Qed.

Lemma step_invariant s c :
  call_contract c → installed_invariant s.1 → installed_invariant (detour_step s c).1.
Proof.
  destruct s as [d w], c as [r dest | i dest |]; simpl; intros Hc Hinv.
  - unfold c_detour.apply.
    destruct (c_detour.m_detour d) eqn:Hd; [done |].
    destruct (_ || _); [done |].
    unfold PLH.x86Detour_hook. destruct (hooked r) eqn:Hr; simpl.
    + split; [eauto | intros _; by apply Hc].
    + split; [done | by intros [? ?]].
  - done.
  - unfold c_detour.unhook. destruct (c_detour.m_detour d); [| done].
    split; [done | by intros [? ?]].
Qed.

Lemma step_idle s c :
  (c_detour.m_detour s.1 = None → c_detour.m_trampoline s.1 = 0) →
  c_detour.m_detour (detour_step s c).1 = None →
  c_detour.m_trampoline (detour_step s c).1 = 0.
Proof.
  destruct s as [d w], c as [r dest | i dest |]; simpl; intros Hinv.
  - unfold c_detour.apply.
    destruct (c_detour.m_detour d) eqn:Hd; simpl; [congruence |].
    destruct (_ || _); simpl; [by intros _; apply Hinv |].
    by destruct (hooked r).
  - done.
  - unfold c_detour.unhook.
    destruct (c_detour.m_detour d) eqn:Hd; simpl; [done | by intros _; apply Hinv].
Qed.

Lemma step_unbound s c :
  c_detour.m_src s.1 = 0 → c_detour.m_detour s.1 = None → (detour_step s c) = s.
Proof.
  destruct s as [d w], c as [r dest | i dest |]; simpl; intros Hs Hd.
  - rewrite apply_null; auto.
  - done.
  - unfold c_detour.unhook. by rewrite Hd.
Qed.

Lemma run_src cs s : c_detour.m_src (detour_run cs s).1 = c_detour.m_src s.1.
Proof.
  unfold detour_run. revert s.
  induction cs as [| c cs IH]; intros s; [done |].
  simpl. by rewrite IH, step_src.
Qed.

Lemma run_idle cs s :
  (c_detour.m_detour s.1 = None → c_detour.m_trampoline s.1 = 0) →
  c_detour.m_detour (detour_run cs s).1 = None →
  c_detour.m_trampoline (detour_run cs s).1 = 0.
Proof.
  unfold detour_run. revert s.
  induction cs as [| c cs IH]; intros s Hs; [done |].
  simpl. apply IH. by apply step_idle.
Qed.

Lemma run_unbound cs s :
  c_detour.m_src s.1 = 0 → c_detour.m_detour s.1 = None → detour_run cs s = s.
Proof.
  unfold detour_run. intros Hs Hd.
  induction cs as [| c cs IH]; [done |].
  simpl. by rewrite step_unbound.
Qed.

Lemma run_invariant cs s :
  Forall call_contract cs → installed_invariant s.1 →
  installed_invariant (detour_run cs s).1.
Proof.
  unfold detour_run. intros Hcs. revert s.
  induction Hcs as [| c cs Hc _ IH]; intros s Hs; [done |].
  simpl. apply IH. by apply step_invariant.
Qed.

End detour.

(** C1. Install is idempotent: once a call to [apply] has left the detour
    holding a session, every further [apply], with any destination and
    whatever the engine would answer, returns the same trampoline value and
    changes neither the detour nor the world; the engine has committed one
    patch if the first call found no session, and none otherwise. *)
Theorem detour_apply_idempotent
    (r1 r2 : verdict) (dest dest' : Z) (d d1 : c_detour.t) (w w1 : world) (t1 : Z) :
  c_detour.apply r1 dest d w = (t1, d1, w1) →
  is_Some (c_detour.m_detour d1) →
  c_detour.apply r2 dest' d1 w1 = (t1, d1, w1) ∧
  commits w1 =
    (commits w + match c_detour.m_detour d with Some _ => 0 | None => 1 end)%nat.
Proof.
  intros Happ Hheld.
  destruct (c_detour.m_detour d) as [s |] eqn:Hd.
  - rewrite apply_installed in Happ by (rewrite Hd; eauto).
    injection Happ as <- <- <-.
    rewrite apply_installed by (rewrite Hd; eauto). split; [done | lia].
  - destruct (decide (c_detour.m_src d = 0 ∨ dest = 0)) as [Hz | Hnz].
    + rewrite apply_null in Happ by done. injection Happ as <- <- <-.
      rewrite Hd in Hheld. by destruct Hheld.
    + rewrite apply_commit in Happ by tauto. simpl in Happ.
      destruct (hooked r1) eqn:Hr; injection Happ as <- <- <-.
      * rewrite apply_installed by (simpl; eauto). split; [done |].
        by rewrite commits_record.
      * by destruct Hheld.
Qed.

Lemma detour_apply_idempotent_witness :
  c_detour.apply (Verdict false 0) 8192
    (c_detour.Build 4096 20480 (Some (PLH.X86Detour 4096 8192)))
    (World ∅ ∅ [ev_hook 4096 8192 true])
  = (20480, c_detour.Build 4096 20480 (Some (PLH.X86Detour 4096 8192)),
     World ∅ ∅ [ev_hook 4096 8192 true])
  ∧ commits (World ∅ ∅ [ev_hook 4096 8192 true]) = 1%nat.
Proof.
  apply (detour_apply_idempotent (Verdict true 20480) (Verdict false 0)
           8192 8192 (c_detour.make 4096) _ (World ∅ ∅ [])).
  - reflexivity.
  - simpl. eauto.
Defined.

(** C2, as stated, fails: on a detour that already holds a session, [apply]
    with destination 0 returns the existing trampoline, not 0. *)
Lemma detour_apply_null_dest_counterexample :
  let s1 :=
    c_detour.apply (Verdict true 20480) 8192 (c_detour.make 4096) (World ∅ ∅ []) in
  let s2 := c_detour.apply (Verdict true 20480) 0 s1.1.2 s1.2 in
  s2.1.1 = 20480 ∧ s2.1.1 ≠ 0 ∧ c_detour.m_trampoline s2.1.2 ≠ 0.
Proof. vm_compute. repeat split; discriminate. Qed.

(** C2, amended.  After any history of calls on a detour constructed with
    source [src]: if [src] is 0 the detour holds no session; and whenever it
    holds no session, [apply] with [src] 0 or destination 0 returns 0, leaves
    the detour and the world as they were, and the stored trampoline is 0. *)
Theorem detour_apply_null_guard
    (src : Z) (cs : list detour_call) (w0 : world) (r : verdict) (dest : Z) :
  let s := detour_run cs (c_detour.make src, w0) in
  (src = 0 → c_detour.m_detour s.1 = None) ∧
  (c_detour.m_detour s.1 = None → src = 0 ∨ dest = 0 →
   c_detour.apply r dest s.1 s.2 = (0, s.1, s.2) ∧ c_detour.m_trampoline s.1 = 0).
Proof.
  intros s. split.
  - intros ->. unfold s. by rewrite run_unbound.
  - intros Hd Hz. split.
    + apply apply_null; [done |].
      unfold s. rewrite run_src. simpl. tauto.
    + by apply run_idle.
Qed.

Lemma detour_apply_null_guard_witness :
  c_detour.apply (Verdict true 20480) 0 (c_detour.make 4096)
    (World ∅ ∅ [ev_hook 4096 8192 true; ev_unHook 4096 8192])
  = (0, c_detour.make 4096,
     World ∅ ∅ [ev_hook 4096 8192 true; ev_unHook 4096 8192])
  ∧ c_detour.m_trampoline (c_detour.make 4096) = 0.
Proof.
  apply (detour_apply_null_guard 4096
           [call_apply (Verdict true 20480) 8192; call_unhook]
           (World ∅ ∅ []) (Verdict true 20480) 0).
  - reflexivity.
  - right. reflexivity.
Defined.

(** C3. Engine failure is atomic: with source and destination nonzero and no
    session held, if the engine's [hook()] fails then [apply] returns 0 and
    leaves the detour with no session, trampoline 0 and the same source, the
    very object it was when its trampoline was 0 before the call; the engine
    has committed nothing. *)
Theorem detour_apply_engine_failure
    (r : verdict) (dest : Z) (d : c_detour.t) (w : world) :
  c_detour.m_src d ≠ 0 → dest ≠ 0 →
  c_detour.m_detour d = None → hooked r = false →
  ∃ d' w',
    c_detour.apply r dest d w = (0, d', w') ∧
    c_detour.m_detour d' = None ∧
    c_detour.m_trampoline d' = 0 ∧
    c_detour.m_src d' = c_detour.m_src d ∧
    (c_detour.m_trampoline d = 0 → d' = d) ∧
    commits w' = commits w.
Proof.
  intros Hs Hn Hd Hr. rewrite apply_commit by done. simpl. rewrite Hr.
  eexists _, _. split; [done |]. repeat split.
  - intros Ht. destruct d as [s t o]; simpl in *. by subst.
  - rewrite commits_record. simpl. lia.
Qed.

Lemma detour_apply_engine_failure_witness :
  ∃ d' w',
    c_detour.apply (Verdict false 20480) 8192 (c_detour.make 4096) (World ∅ ∅ [])
    = (0, d', w') ∧
    c_detour.m_detour d' = None ∧
    c_detour.m_trampoline d' = 0 ∧
    c_detour.m_src d' = 4096 ∧
    (0 = 0 → d' = c_detour.make 4096) ∧
    commits w' = commits (World ∅ ∅ []).
Proof.
  apply (detour_apply_engine_failure (Verdict false 20480) 8192
           (c_detour.make 4096) (World ∅ ∅ [])); simpl; (done || lia).
Defined.

(** C7. The overload that does not fit the kind of hook does nothing: called
    through a [c_hook] pointer, the two-argument [apply] on a detour and the
    one-argument [apply] on a vtable hook return 0 and leave the hook and the
    world as they were. *)
Theorem inapplicable_overload_noop :
  (∀ (r : verdict) (i dest : Z) (d : c_detour.t) (w : world),
     c_detour.apply_index i dest d w = (0, d, w) ∧
     hook_apply_index r i dest (Detour d) w = Some (0, Detour d, w)) ∧
  (∀ (r : verdict) (dest : Z) (v : c_vtable_hook.t) (w : world),
     hook_apply r dest (VtableHook v) w = Some (0, VtableHook v, w)).
Proof. by split. Qed.

(** C8. The installed-state invariant holds of a freshly constructed detour
    and is preserved by every call ([apply] committed, refused or
    null-guarded, the unused overload, [unhook]) and so by every history of
    calls, given that the engine hands back a non-null trampoline whenever
    it commits. *)
Theorem detour_installed_invariant
    (src : Z) (d : c_detour.t) (w : world) (cs : list detour_call) :
  installed_invariant (c_detour.make src) ∧
  (installed_invariant d → Forall call_contract cs →
   installed_invariant (detour_run cs (d, w)).1).
Proof.
  split.
  - split; [done | by intros [? ?]].
  - intros Hd Hcs. by apply run_invariant.
Qed.

Lemma detour_installed_invariant_witness :
  installed_invariant
    (detour_run
       [call_apply (Verdict false 7) 8192; call_apply (Verdict true 20480) 8192;
        call_apply (Verdict true 24576) 0; call_apply_index 3 8192;
        call_unhook; call_unhook]
       (c_detour.make 4096, World ∅ ∅ [])).1.
Proof.
  apply (proj2 (detour_installed_invariant 4096 (c_detour.make 4096)
                  (World ∅ ∅ []) _)).
  - apply (proj1 (detour_installed_invariant 4096 (c_detour.make 4096)
                    (World ∅ ∅ []) [])).
  - repeat constructor; simpl; unfold trampoline_contract; simpl; discriminate.
Defined.

(** * Properties of [c_vtable_hook] *)

Section vtable.

Implicit Types (h : c_vtable_hook.t) (w : world) (T : list Z).

Lemma u16_range i : 0 ≤ u16 i < 2 ^ 16.
Proof. unfold u16. apply Z.mod_pos_bound. lia. Qed.

Lemma u16_le i : 0 ≤ i → u16 i ≤ i.
Proof. intros Hi. unfold u16. apply Z.mod_le; lia. Qed.

Lemma u16_small i : 0 ≤ i < 2 ^ 16 → u16 i = i.
Proof. intros Hi. unfold u16. by apply Z.mod_small. Qed.

Lemma u64_small a : 0 ≤ a < 2 ^ 32 → u64 a = a.
Proof. intros Ha. unfold u64. apply Z.mod_small. lia. Qed.

Lemma read_slot_Some w instance index o :
  read_slot w instance index = Some o ↔
  ∃ vt T, vptrs w !! instance = Some vt ∧ tables w !! vt = Some T ∧
          T !! Z.to_nat index = Some o.
Proof.
  unfold read_slot. split.
  - intros H.
    destruct (vptrs w !! instance) as [vt |] eqn:Hvt; simpl in H; [| done].
    destruct (tables w !! vt) as [T |] eqn:HT; simpl in H; [| done].
    eauto.
  - intros (vt & T & -> & HT & Ho). simpl. by rewrite HT.
Qed.

Lemma set_tables_insert_twice vt (A B : list Z) w :
  set_tables (insert vt A) (set_tables (insert vt B) w) = set_tables (insert vt A) w.
Proof. unfold set_tables; simpl. by rewrite insert_insert_eq. Qed.

Lemma set_tables_insert_id vt T w :
  tables w !! vt = Some T → set_tables (insert vt T) w = w.
Proof. intros H. destruct w. unfold set_tables; simpl in *. by rewrite insert_id. Qed.

(** The body of [apply] past its null guard and its read. *)
Lemma apply_read ok index replacement h w vt T o :
  c_vtable_hook.m_instance h ≠ 0 →
  vptrs w !! c_vtable_hook.m_instance h = Some vt →
  tables w !! vt = Some T →
  T !! Z.to_nat index = Some o →
  c_vtable_hook.apply ok index replacement h w =
    match c_vtable_hook.m_mode h with
    | c_vtable_hook.vfunc_swap =>
        let '(committed, hook', w') :=
          PLH.VFuncSwapHook_hook ok
            (PLH.VFuncSwap vt (u16 index) (u64 replacement) None) w in
        if committed then
          Some (o, c_vtable_hook.emplace_back
                     (c_vtable_hook.Entry index o (Some hook') None) h, w')
        else Some (0, h, w')
    | c_vtable_hook.vtable_swap =>
        let '(committed, hook', w') :=
          PLH.VTableSwapHook_hook ok
            (PLH.VTableSwap (u64 (c_vtable_hook.m_instance h)) (u16 index)
               (u64 replacement) None None) w in
        if committed then
          Some (o, c_vtable_hook.emplace_back
                     (c_vtable_hook.Entry index o None (Some hook')) h, w')
        else Some (0, h, w')
    end.
Proof.
  intros Hi Hvt HT Ho. unfold c_vtable_hook.apply.
  rewrite bool_decide_eq_false_2 by done.
  rewrite Hvt; simpl. rewrite HT; simpl. by rewrite Ho.
Qed.

Lemma vfunc_hook_commit vt T s repl old w :
  tables w !! vt = Some T → T !! Z.to_nat s = Some old →
  PLH.VFuncSwapHook_hook true (PLH.VFuncSwap vt s repl None) w =
    (true, PLH.VFuncSwap vt s repl (Some old),
     set_tables (insert vt (<[Z.to_nat s := repl]> T)) w).
Proof.
  intros HT Hs. unfold PLH.VFuncSwapHook_hook; simpl. by rewrite HT, Hs.
Qed.

Lemma vtable_hook_commit instance vt T s repl w :
  vptrs w !! instance = Some vt → tables w !! vt = Some T →
  (Z.to_nat s < length T)%nat →
  PLH.VTableSwapHook_hook true (PLH.VTableSwap instance s repl None None) w =
    (true,
     PLH.VTableSwap instance s repl (Some vt) (Some (PLH.fresh_table w)),
     set_vptrs (insert instance (PLH.fresh_table w))
       (set_tables
          (insert (PLH.fresh_table w) (<[Z.to_nat s := repl]> T)) w)).
Proof.
  intros Hvt HT Hs. unfold PLH.VTableSwapHook_hook; simpl.
  rewrite Hvt, HT. by rewrite decide_True.
Qed.

Lemma slot16_in_bounds T index o :
  0 ≤ index → T !! Z.to_nat index = Some o →
  (Z.to_nat (u16 index) < length T)%nat.
Proof.
  intros Hi Ho. apply lookup_lt_Some in Ho.
  pose proof (u16_le index Hi). pose proof (u16_range index). lia.
Qed.

Lemma apply_vfunc_commit index replacement h w vt T o old :
  c_vtable_hook.m_instance h ≠ 0 →
  c_vtable_hook.m_mode h = c_vtable_hook.vfunc_swap →
  vptrs w !! c_vtable_hook.m_instance h = Some vt →
  tables w !! vt = Some T →
  T !! Z.to_nat index = Some o →
  T !! Z.to_nat (u16 index) = Some old →
  c_vtable_hook.apply true index replacement h w =
    Some (o,
          c_vtable_hook.emplace_back
            (c_vtable_hook.Entry index o
               (Some (PLH.VFuncSwap vt (u16 index) (u64 replacement) (Some old)))
               None) h,
          set_tables (insert vt (<[Z.to_nat (u16 index) := u64 replacement]> T)) w).
Proof.
  intros Hi Hm Hvt HT Ho Hold.
  rewrite (apply_read _ _ _ _ _ vt T o) by done.
  rewrite Hm. by rewrite (vfunc_hook_commit vt T _ _ old).
Qed.

Lemma apply_vtable_commit index replacement h w vt T o :
  c_vtable_hook.m_instance h ≠ 0 →
  0 ≤ c_vtable_hook.m_instance h < 2 ^ 32 → 0 ≤ index →
  c_vtable_hook.m_mode h = c_vtable_hook.vtable_swap →
  vptrs w !! c_vtable_hook.m_instance h = Some vt →
  tables w !! vt = Some T →
  T !! Z.to_nat index = Some o →
  c_vtable_hook.apply true index replacement h w =
    Some (o,
          c_vtable_hook.emplace_back
            (c_vtable_hook.Entry index o None
               (Some (PLH.VTableSwap (c_vtable_hook.m_instance h) (u16 index)
                        (u64 replacement) (Some vt) (Some (PLH.fresh_table w)))))
            h,
          set_vptrs (insert (c_vtable_hook.m_instance h) (PLH.fresh_table w))
            (set_tables
               (insert (PLH.fresh_table w)
                  (<[Z.to_nat (u16 index) := u64 replacement]> T)) w)).
Proof.
  intros Hi Hr Hidx Hm Hvt HT Ho.
  rewrite (apply_read _ _ _ _ _ vt T o) by done.
  rewrite Hm, (u64_small (c_vtable_hook.m_instance h)) by done.
  rewrite (vtable_hook_commit _ vt T) by eauto using slot16_in_bounds. done.
Qed.

Lemma apply_refused index replacement h w :
  c_vtable_hook.m_instance h ≠ 0 →
  is_Some (read_slot w (c_vtable_hook.m_instance h) index) →
  c_vtable_hook.apply false index replacement h w = Some (0, h, w).
Proof.
  intros Hi [o (vt & T & Hvt & HT & Ho)%read_slot_Some].
  rewrite (apply_read _ _ _ _ _ vt T o) by done.
  by destruct (c_vtable_hook.m_mode h).
Qed.

Lemma apply_defined ok index replacement h w :
  c_vtable_hook.m_instance h ≠ 0 →
  is_Some (c_vtable_hook.apply ok index replacement h w) ↔
  is_Some (read_slot w (c_vtable_hook.m_instance h) index).
Proof.
  intros Hi. split.
  - unfold c_vtable_hook.apply, read_slot.
    rewrite bool_decide_eq_false_2 by done.
    destruct (vptrs w !! c_vtable_hook.m_instance h) as [vt |]; simpl;
      [| by intros [? ?]].
    destruct (tables w !! vt) as [T |]; simpl; [| by intros [? ?]].
    destruct (T !! Z.to_nat index); simpl; [eauto | by intros [? ?]].
  - intros [o (vt & T & Hvt & HT & Ho)%read_slot_Some].
    rewrite (apply_read _ _ _ _ _ vt T o) by done.
    destruct (c_vtable_hook.m_mode h).
    + destruct (PLH.VFuncSwapHook_hook _ _ _) as [[[] ?] ?]; eauto.
    + destruct (PLH.VTableSwapHook_hook _ _ _) as [[[] ?] ?]; eauto.
Qed.

End vtable.

Section teardown.

Implicit Types (h : c_vtable_hook.t) (w : world) (T : list Z).
Implicit Types (e : c_vtable_hook.HookEntry) (es : list c_vtable_hook.HookEntry).

(** The table under the hook, at address [vt], and its slots [T0] before any
    install. *)
Variables (vt : Z) (T0 : list Z).

Lemma swapped_nil p : ¬ swapped [] p.
Proof. intros (e & hk & He & _). by apply elem_of_nil in He. Qed.

Lemma swapped_cons e es p :
  swapped (e :: es) p ↔
  (∃ hk, c_vtable_hook.vfunc e = Some hk ∧ Z.to_nat (PLH.vf_index hk) = p) ∨
  swapped es p.
Proof.
  unfold swapped. split.
  - intros (e' & hk & [-> | He]%elem_of_cons & Hv & Hp); [left | right]; eauto.
  - intros [(hk & Hv & Hp) | (e' & hk & He & Hv & Hp)].
    + exists e, hk. split; [apply elem_of_cons; by left | done].
    + exists e', hk. split; [apply elem_of_cons; by right | done].
Qed.

Lemma swapped_snoc es e p :
  swapped (es ++ [e]) p ↔
  swapped es p ∨
  (∃ hk, c_vtable_hook.vfunc e = Some hk ∧ Z.to_nat (PLH.vf_index hk) = p).
Proof.
  unfold swapped. split.
  - intros (e' & hk & [He | ->%list_elem_of_singleton]%elem_of_app & Hv & Hp);
      [left | right]; eauto.
  - intros [(e' & hk & He & Hv & Hp) | (hk & Hv & Hp)].
    + exists e', hk. split; [apply elem_of_app; by left | done].
    + exists e, hk. split; [| done].
      apply elem_of_app; right. by apply list_elem_of_singleton.
Qed.

(** An index above the engine's 16-bit range is never a swapped slot. *)
Lemma index_not_swapped es i :
  Forall (remembers vt T0) es → 0 ≤ i →
  ¬ swapped es (Z.to_nat (u16 i)) → ¬ swapped es (Z.to_nat i).
Proof.
  intros Hes Hi Hn (e & hk & He & Hv & Hp). apply Hn.
  exists e, hk. split; [done |]. split; [done |].
  rewrite Forall_forall in Hes.
  destruct (Hes e He) as (_ & hk' & old & Hv' & _ & Hr & _).
  rewrite Hv in Hv'. injection Hv' as <-.
  assert (i = PLH.vf_index hk) as -> by lia.
  by rewrite u16_small.
Qed.

(** Undoing, in any order, handles that each remember the original content
    of their slot brings the table back, provided the table differs from
    the original in swapped slots only. *)
Lemma unhook_loop_restores es : ∀ w T,
  tables w !! vt = Some T → length T = length T0 →
  Forall (remembers vt T0) es →
  (∀ p, ¬ swapped es p → T !! p = T0 !! p) →
  c_vtable_hook.unhook_loop es w = set_tables (insert vt T0) w.
Proof.
  induction es as [| e es IH]; intros w T HT Hlen Hes Hout.
  - simpl. assert (T = T0) as ->.
    { apply list_eq. intros p. apply Hout, swapped_nil. }
    by rewrite set_tables_insert_id.
  - apply Forall_cons in Hes as [He Hes].
    destruct He as (Hvt & hk & old & Hv & Htab & Hr & Hsaved & Hold).
    simpl. unfold c_vtable_hook.unhook_entry. rewrite Hv, Hvt.
    unfold PLH.VFuncSwapHook_unHook. rewrite Hsaved, Htab, HT.
    rewrite (IH _ (<[Z.to_nat (PLH.vf_index hk) := old]> T)).
    + apply set_tables_insert_twice.
    + simpl. apply lookup_insert_eq.
    + by rewrite length_insert.
    + done.
    + intros p Hp.
      destruct (decide (p = Z.to_nat (PLH.vf_index hk))) as [-> | Hne].
      * rewrite list_lookup_insert_eq; [done |].
        apply lookup_lt_Some in Hold. lia.
      * rewrite list_lookup_insert_ne by done.
        apply Hout. rewrite swapped_cons. intros [(hk' & Hv' & Hp') | Hs]; [| done].
        rewrite Hv in Hv'. injection Hv' as <-. done.
Qed.

(** A run of committed single-slot installs at slots no live entry has
    swapped, pairwise distinct as the engine numbers them. *)
Lemma install_all_swaps reqs : ∀ h w T,
  c_vtable_hook.m_instance h ≠ 0 →
  c_vtable_hook.m_mode h = c_vtable_hook.vfunc_swap →
  vptrs w !! c_vtable_hook.m_instance h = Some vt →
  tables w !! vt = Some T → length T = length T0 →
  Forall (remembers vt T0) (c_vtable_hook.m_hooks h) →
  (∀ p, ¬ swapped (c_vtable_hook.m_hooks h) p → T !! p = T0 !! p) →
  Forall (λ req : Z * Z, 0 ≤ req.1 < Z.of_nat (length T0)) reqs →
  NoDup (map (λ req : Z * Z, u16 req.1) reqs) →
  (∀ req, req ∈ reqs →
     ¬ swapped (c_vtable_hook.m_hooks h) (Z.to_nat (u16 req.1))) →
  ∃ es T1,
    install_all reqs h w =
      Some (map c_vtable_hook.original es,
            c_vtable_hook.Build (c_vtable_hook.m_instance h)
              c_vtable_hook.vfunc_swap (c_vtable_hook.m_hooks h ++ es),
            set_tables (insert vt T1) w) ∧
    length T1 = length T0 ∧
    Forall (remembers vt T0) (c_vtable_hook.m_hooks h ++ es) ∧
    (∀ p, ¬ swapped (c_vtable_hook.m_hooks h ++ es) p → T1 !! p = T0 !! p) ∧
    Forall2 (λ (req : Z * Z) e,
               c_vtable_hook.index e = req.1 ∧
               T0 !! Z.to_nat req.1 = Some (c_vtable_hook.original e)) reqs es.
Proof.
  induction reqs as [| [i d] reqs IH];
    intros h w T Hi Hm Hvt HT Hlen Hes Hout Hb Hnd Hfresh.
  - exists [], T. rewrite app_nil_r. simpl.
    rewrite set_tables_insert_id by done.
    destruct h as [inst m es]; simpl in *; subst m. repeat split; auto.
  - apply Forall_cons in Hb as [Hbi Hb]. simpl in Hbi.
    apply NoDup_cons in Hnd as [Hni Hnd]. simpl in Hni.
    assert (Hfi : ¬ swapped (c_vtable_hook.m_hooks h) (Z.to_nat (u16 i))).
    { apply (Hfresh (i, d)). apply elem_of_cons; by left. }
    assert (Hfi' : ¬ swapped (c_vtable_hook.m_hooks h) (Z.to_nat i)).
    { apply index_not_swapped; [done | lia | done]. }
    pose proof (u16_range i) as Hr16.
    pose proof (u16_le i (proj1 Hbi)) as Hle16.
    destruct (lookup_lt_is_Some_2 T0 (Z.to_nat i)) as [o Ho]; [lia |].
    destruct (lookup_lt_is_Some_2 T0 (Z.to_nat (u16 i))) as [old Hold]; [lia |].
    assert (HTo : T !! Z.to_nat i = Some o) by (by rewrite Hout).
    assert (HTold : T !! Z.to_nat (u16 i) = Some old) by (by rewrite Hout).
    set (e := c_vtable_hook.Entry i o
                (Some (PLH.VFuncSwap vt (u16 i) (u64 d) (Some old))) None).
    set (T' := <[Z.to_nat (u16 i) := u64 d]> T).
    destruct (IH (c_vtable_hook.emplace_back e h) (set_tables (insert vt T') w) T')
      as (es & T1 & Hrun & Hlen1 & Hes1 & Hout1 & Hcap); simpl; try done.
    + apply lookup_insert_eq.
    + unfold T'. by rewrite length_insert.
    + apply Forall_app. split; [done |]. apply Forall_singleton.
      split; [done |]. exists (PLH.VFuncSwap vt (u16 i) (u64 d) (Some old)), old.
      repeat split; simpl; try done; lia.
    + intros p Hp. rewrite swapped_snoc in Hp.
      unfold T'. rewrite list_lookup_insert_ne.
      * apply Hout. tauto.
      * intros <-. apply Hp. right. eexists. by split.
    + intros req Hreq. rewrite swapped_snoc. intros [Hs | (hk & Hv & Hp)].
      * revert Hs. apply Hfresh. apply elem_of_cons; by right.
      * injection Hv as <-. simpl in Hp.
        apply Hni. apply list_elem_of_fmap. exists req. split; [| done].
        pose proof (u16_range req.1). lia.
    + exists (e :: es), T1.
      simpl in Hrun, Hes1, Hout1.
      rewrite <- app_assoc in Hrun, Hes1, Hout1. simpl in Hrun, Hes1, Hout1.
      rewrite set_tables_insert_twice in Hrun.
      simpl. rewrite (apply_vfunc_commit _ _ _ _ vt T o old) by done.
      fold e T'. rewrite Hrun.
      repeat split; try done.
      constructor; [by split | done].
Qed.

End teardown.

Section round_trip.

Implicit Types (h : c_vtable_hook.t) (w : world) (T : list Z).

Lemma unhook_entry_vfunc vt s repl old index o w T :
  tables w !! vt = Some T →
  c_vtable_hook.unhook_entry
    (c_vtable_hook.Entry index o (Some (PLH.VFuncSwap vt s repl (Some old))) None) w
  = set_tables (insert vt (<[Z.to_nat s := old]> T)) w.
Proof.
  intros HT. unfold c_vtable_hook.unhook_entry, PLH.VFuncSwapHook_unHook; simpl.
  by rewrite HT.
Qed.

Lemma unhook_loop_snoc es e w :
  c_vtable_hook.unhook_loop (es ++ [e]) w =
  c_vtable_hook.unhook_entry e (c_vtable_hook.unhook_loop es w).
Proof. revert w. induction es as [| e' es IH]; intros w; simpl; [done | apply IH]. Qed.

Lemma fresh_table_unused w : tables w !! PLH.fresh_table w = None.
Proof.
  apply not_elem_of_dom. unfold PLH.fresh_table.
  pose proof (is_fresh ({[0]} ∪ dom (tables w) ∪ dom (vptrs w))) as Hf.
  set_solver.
Qed.

(** One whole-table swap, undone. *)
Lemma vtable_swap_round_trip instance index replacement w o :
  instance ≠ 0 → 0 ≤ instance < 2 ^ 32 → 0 ≤ index →
  read_slot w instance index = Some o →
  ∃ h1 w1,
    c_vtable_hook.apply true index replacement
      (c_vtable_hook.make instance c_vtable_hook.vtable_swap) w = Some (o, h1, w1) ∧
    c_vtable_hook.unhook_all h1 w1 =
      (c_vtable_hook.make instance c_vtable_hook.vtable_swap, w).
Proof.
  intros Hi Hr Hidx (vt & T & Hvt & HT & Ho)%read_slot_Some.
  eexists _, _. split.
  - by apply (apply_vtable_commit _ _ _ _ vt T o).
  - unfold c_vtable_hook.unhook_all, c_vtable_hook.make. simpl. f_equal.
    unfold c_vtable_hook.unhook_entry, PLH.VTableSwapHook_unHook. simpl.
    destruct w as [vp tb jr]. unfold set_vptrs, set_tables. simpl in *. f_equal.
    + rewrite insert_insert_eq. by apply insert_id.
    + rewrite delete_insert_eq. apply delete_id.
      apply (fresh_table_unused (World vp tb jr)).
Qed.

End round_trip.

(** C4. Install, success: with a nonzero instance address and the slot
    [index] of the live table readable, whenever the engine commits, [apply]
    returns what that slot held at the start of the call, in either mode, and
    appends exactly one entry: that index, that value, and the handle of the
    hook's mode. *)
Theorem vtable_apply_success
    (index replacement : Z) (h : c_vtable_hook.t) (w : world) (o : Z) :
  c_vtable_hook.m_instance h ≠ 0 →
  0 ≤ c_vtable_hook.m_instance h < 2 ^ 32 → 0 ≤ index →
  read_slot w (c_vtable_hook.m_instance h) index = Some o →
  ∃ e h' w',
    c_vtable_hook.apply true index replacement h w = Some (o, h', w') ∧
    c_vtable_hook.m_hooks h' = c_vtable_hook.m_hooks h ++ [e] ∧
    c_vtable_hook.m_instance h' = c_vtable_hook.m_instance h ∧
    c_vtable_hook.m_mode h' = c_vtable_hook.m_mode h ∧
    c_vtable_hook.index e = index ∧
    c_vtable_hook.original e = o ∧
    match c_vtable_hook.m_mode h with
    | c_vtable_hook.vfunc_swap =>
        is_Some (c_vtable_hook.vfunc e) ∧ c_vtable_hook.vtable e = None
    | c_vtable_hook.vtable_swap =>
        c_vtable_hook.vfunc e = None ∧ is_Some (c_vtable_hook.vtable e)
    end.
Proof.
  intros Hi Hr Hidx Hread.
  destruct (proj1 (read_slot_Some _ _ _ _) Hread) as (vt & T & Hvt & HT & Ho).
  destruct (c_vtable_hook.m_mode h) eqn:Hm.
  - destruct (lookup_lt_is_Some_2 T (Z.to_nat (u16 index))) as [old Hold];
      [by apply (slot16_in_bounds T index o) |].
    eexists _, _, _. split.
    + by apply (apply_vfunc_commit _ _ _ _ vt T o old).
    + simpl. rewrite Hm. repeat split; eauto.
  - eexists _, _, _. split.
    + by apply (apply_vtable_commit _ _ _ _ vt T o).
    + simpl. rewrite Hm. repeat split; eauto.
Qed.

Lemma vtable_apply_success_witness :
  ∃ e h' w',
    c_vtable_hook.apply true 1 4096
      (c_vtable_hook.make 256 c_vtable_hook.vtable_swap)
      (World {[256 := 1280]} {[1280 := [16; 17; 18]]} []) = Some (17, h', w') ∧
    c_vtable_hook.m_hooks h' = [] ++ [e] ∧
    c_vtable_hook.m_instance h' = 256 ∧
    c_vtable_hook.m_mode h' = c_vtable_hook.vtable_swap ∧
    c_vtable_hook.index e = 1 ∧
    c_vtable_hook.original e = 17 ∧
    c_vtable_hook.vfunc e = None ∧ is_Some (c_vtable_hook.vtable e).
Proof.
  apply (vtable_apply_success 1 4096
           (c_vtable_hook.make 256 c_vtable_hook.vtable_swap)
           (World {[256 := 1280]} {[1280 := [16; 17; 18]]} []) 17);
    simpl; [discriminate | lia | lia | reflexivity].
Defined.

(** C5. Install, failure: when the instance address is 0, and when it is
    not, the slot is readable and the engine refuses to commit (in either
    mode), [apply] returns 0 and leaves the hook, its entry list included,
    and the world as they were. *)
Theorem vtable_apply_failure
    (ok : bool) (index replacement : Z) (h : c_vtable_hook.t) (w : world) :
  c_vtable_hook.m_instance h = 0 ∨
  (ok = false ∧ is_Some (read_slot w (c_vtable_hook.m_instance h) index)) →
  c_vtable_hook.apply ok index replacement h w = Some (0, h, w).
Proof.
  intros [Hz | [-> Hread]].
  - unfold c_vtable_hook.apply. by rewrite bool_decide_eq_true_2.
  - destruct (decide (c_vtable_hook.m_instance h = 0)) as [Hz | Hnz].
    + unfold c_vtable_hook.apply. by rewrite bool_decide_eq_true_2.
    + by apply apply_refused.
Qed.

Lemma vtable_apply_failure_witness :
  c_vtable_hook.apply false 1 4096
    (c_vtable_hook.Build 256 c_vtable_hook.vtable_swap
       [c_vtable_hook.Entry 0 16 None None])
    (World {[256 := 1280]} {[1280 := [16; 17; 18]]} [])
  = Some (0,
          c_vtable_hook.Build 256 c_vtable_hook.vtable_swap
            [c_vtable_hook.Entry 0 16 None None],
          World {[256 := 1280]} {[1280 := [16; 17; 18]]} []).
Proof.
  apply vtable_apply_failure. right. split; [reflexivity |].
  exists 17. reflexivity.
Defined.

(** C10. The index is never validated: with a nonzero instance address whose
    object and table are live, [apply] has a defined outcome exactly when
    [index] is within the bounds of the table, and is a read outside the
    table for every other index. *)
Theorem vtable_apply_unguarded_read
    (ok : bool) (index replacement : Z) (h : c_vtable_hook.t) (w : world)
    (vt : Z) (T : list Z) :
  c_vtable_hook.m_instance h ≠ 0 → 0 ≤ index →
  vptrs w !! c_vtable_hook.m_instance h = Some vt →
  tables w !! vt = Some T →
  (is_Some (c_vtable_hook.apply ok index replacement h w) ↔
   index < Z.of_nat (length T)) ∧
  (c_vtable_hook.apply ok index replacement h w = None ↔
   Z.of_nat (length T) ≤ index).
Proof.
  intros Hi Hidx Hvt HT.
  assert (Hdef : is_Some (c_vtable_hook.apply ok index replacement h w) ↔
                 index < Z.of_nat (length T)).
  { rewrite apply_defined by done. unfold read_slot.
    rewrite Hvt; simpl. rewrite HT; simpl.
    rewrite lookup_lt_is_Some. lia. }
  split; [done |].
  rewrite eq_None_not_Some, Hdef. lia.
Qed.

Lemma vtable_apply_unguarded_read_witness :
  (is_Some (c_vtable_hook.apply true 3 4096
              (c_vtable_hook.make 256 c_vtable_hook.vfunc_swap)
              (World {[256 := 1280]} {[1280 := [16; 17; 18]]} [])) ↔
   3 < Z.of_nat (length [16; 17; 18])) ∧
  (c_vtable_hook.apply true 3 4096
     (c_vtable_hook.make 256 c_vtable_hook.vfunc_swap)
     (World {[256 := 1280]} {[1280 := [16; 17; 18]]} []) = None ↔
   Z.of_nat (length [16; 17; 18]) ≤ 3).
Proof.
  apply (vtable_apply_unguarded_read true 3 4096
           (c_vtable_hook.make 256 c_vtable_hook.vfunc_swap)
           (World {[256 := 1280]} {[1280 := [16; 17; 18]]} []) 1280 [16; 17; 18]);
    simpl; [discriminate | lia | reflexivity | reflexivity].
Defined.

(** C6. The teardown loop breaks the claim: [unhook_all] undoes the entries
    front to back, where restoring the original dispatch state needs back to
    front.  In whole-table mode, after two installs at different indices of
    the table [16; 17; 18], the object is left pointing at the first
    duplicate, which has been freed, so index 1 no longer reads 17.  In
    single-slot mode, after two installs at index 1, which capture 17 and
    then 4096, the slot reads 4096, not 17. *)
Lemma unhook_all_front_to_back_defect :
  let w0 := World {[256 := 1280]} {[1280 := [16; 17; 18]]} [] in
  match install_all [(1, 4096); (1, 8192)]
          (c_vtable_hook.make 256 c_vtable_hook.vfunc_swap) w0 with
  | Some (origs, h2, w2) =>
      origs = [17; 4096] ∧
      read_slot (c_vtable_hook.unhook_all h2 w2).2 256 1 = Some 4096 ∧
      read_slot (c_vtable_hook.unhook_all h2 w2).2 256 1 ≠ Some 17
  | None => False
  end ∧
  match install_all [(1, 4096); (2, 8192)]
          (c_vtable_hook.make 256 c_vtable_hook.vtable_swap) w0 with
  | Some (origs, h2, w2) =>
      origs = [17; 18] ∧
      read_slot (c_vtable_hook.unhook_all h2 w2).2 256 1 = None ∧
      vptrs (c_vtable_hook.unhook_all h2 w2).2 !! 256 ≠ Some 1280
  | None => False
  end.
Proof. vm_compute. repeat split; discriminate. Qed.

(** X17. Where the front-to-back teardown does restore the dispatch state.
    [unhook_all] on a hook with no entries changes nothing, and it always
    leaves the entry list empty.  In single-slot mode, after committed
    installs at in-bounds indices whose 16-bit slot numbers are pairwise
    distinct, [unhook_all] gives back the hook and the world as they were
    before the installs, so every installed index reads back the value its
    entry captured.  In whole-table mode the same holds after one committed
    install. *)
Theorem unhook_all_restores_distinct_slots
    (instance : Z) (m : c_vtable_hook.mode) (w : world) :
  c_vtable_hook.unhook_all (c_vtable_hook.make instance m) w
    = (c_vtable_hook.make instance m, w) ∧
  (∀ h : c_vtable_hook.t,
     c_vtable_hook.m_hooks (c_vtable_hook.unhook_all h w).1 = []) ∧
  (∀ (reqs : list (Z * Z)) (vt : Z) (T : list Z),
     instance ≠ 0 →
     vptrs w !! instance = Some vt → tables w !! vt = Some T →
     Forall (λ req : Z * Z, 0 ≤ req.1 < Z.of_nat (length T)) reqs →
     NoDup (map (λ req : Z * Z, u16 req.1) reqs) →
     ∃ origs h1 w1,
       install_all reqs (c_vtable_hook.make instance c_vtable_hook.vfunc_swap) w
         = Some (origs, h1, w1) ∧
       map c_vtable_hook.index (c_vtable_hook.m_hooks h1) = map fst reqs ∧
       map c_vtable_hook.original (c_vtable_hook.m_hooks h1) = origs ∧
       c_vtable_hook.unhook_all h1 w1
         = (c_vtable_hook.make instance c_vtable_hook.vfunc_swap, w) ∧
       Forall (λ e, read_slot (c_vtable_hook.unhook_all h1 w1).2 instance
                      (c_vtable_hook.index e)
                    = Some (c_vtable_hook.original e))
         (c_vtable_hook.m_hooks h1)) ∧
  (∀ (index replacement o : Z),
     instance ≠ 0 → 0 ≤ instance < 2 ^ 32 → 0 ≤ index →
     read_slot w instance index = Some o →
     ∃ h1 w1,
       c_vtable_hook.apply true index replacement
         (c_vtable_hook.make instance c_vtable_hook.vtable_swap) w
         = Some (o, h1, w1) ∧
       c_vtable_hook.unhook_all h1 w1
         = (c_vtable_hook.make instance c_vtable_hook.vtable_swap, w)).
Proof.
  split; [done |]. split; [done |]. split.
  - intros reqs vt T Hi Hvt HT Hb Hnd.
    destruct (install_all_swaps vt T reqs
                (c_vtable_hook.make instance c_vtable_hook.vfunc_swap) w T)
      as (es & T1 & Hrun & Hlen & Hes & Hout & Hcap); try (simpl; done).
    { intros req _. apply swapped_nil. }
    simpl in Hrun, Hes, Hout.
    assert (Hundo :
      c_vtable_hook.unhook_all
        (c_vtable_hook.Build instance c_vtable_hook.vfunc_swap es)
        (set_tables (insert vt T1) w)
      = (c_vtable_hook.make instance c_vtable_hook.vfunc_swap, w)).
    { unfold c_vtable_hook.unhook_all, c_vtable_hook.make. simpl. f_equal.
      rewrite (unhook_loop_restores vt T es _ T1); try done.
      - rewrite set_tables_insert_twice. by apply set_tables_insert_id.
      - simpl. apply lookup_insert_eq. }
    eexists _, _, _. split; [exact Hrun |].
    rewrite Hundo. cbn [c_vtable_hook.m_hooks snd].
    split; [| split; [done |]; split; [done |]].
    + clear -Hcap. induction Hcap as [| req e reqs es [He _] _ IH]; simpl;
        [done | by rewrite He, IH].
    + clear -Hcap Hvt HT.
      induction Hcap as [| req e reqs es [He Ho] _ IH]; constructor; [| done].
      apply read_slot_Some. exists vt, T. by rewrite He.
  - intros index replacement o. apply vtable_swap_round_trip.
Qed.

Lemma unhook_all_restores_distinct_slots_witness :
  ∃ origs h1 w1,
    install_all [(2, 4096); (65536, 8192); (1, 12288)]
      (c_vtable_hook.make 256 c_vtable_hook.vfunc_swap)
      (World {[256 := 1280]}
         {[1280 := replicate (Z.to_nat 65536) 16 ++ [17]]} [])
      = Some (origs, h1, w1) ∧
    map c_vtable_hook.index (c_vtable_hook.m_hooks h1) = [2; 65536; 1] ∧
    map c_vtable_hook.original (c_vtable_hook.m_hooks h1) = origs ∧
    c_vtable_hook.unhook_all h1 w1
      = (c_vtable_hook.make 256 c_vtable_hook.vfunc_swap,
         World {[256 := 1280]}
           {[1280 := replicate (Z.to_nat 65536) 16 ++ [17]]} []) ∧
    Forall (λ e, read_slot (c_vtable_hook.unhook_all h1 w1).2 256
                   (c_vtable_hook.index e)
                 = Some (c_vtable_hook.original e))
      (c_vtable_hook.m_hooks h1).
Proof.
  apply (proj1 (proj2 (proj2
           (unhook_all_restores_distinct_slots 256 c_vtable_hook.vfunc_swap
              (World {[256 := 1280]}
                 {[1280 := replicate (Z.to_nat 65536) 16 ++ [17]]} []))))
           [(2, 4096); (65536, 8192); (1, 12288)] 1280
           (replicate (Z.to_nat 65536) 16 ++ [17])).
  - discriminate.
  - reflexivity.
  - reflexivity.
  - rewrite length_app, length_replicate. simpl length.
    repeat constructor; simpl; lia.
  - apply (bool_decide_unpack _). vm_compute. exact I.
Defined.

(** C9, as stated, fails for an index the engine cannot address: the entry
    captures slot 65536 while the engine, handed the index as a 16-bit
    number, swaps slot 0.  Installed twice at index 65536, both entries
    capture 17, and after [unhook_all] slot 65536 holds 17, the value it held
    before any install, not the first replacement 4096. *)
Lemma unhook_all_duplicate_index_counterexample :
  let w0 :=
    World {[256 := 1280]} {[1280 := replicate (Z.to_nat 65536) 16 ++ [17]]} [] in
  match install_all [(65536, 4096); (65536, 8192)]
          (c_vtable_hook.make 256 c_vtable_hook.vfunc_swap) w0 with
  | Some (origs, h2, w2) =>
      origs = [17; 17] ∧
      read_slot w0 256 65536 = Some 17 ∧
      read_slot (c_vtable_hook.unhook_all h2 w2).2 256 65536 = Some 17 ∧
      read_slot (c_vtable_hook.unhook_all h2 w2).2 256 65536 ≠ Some 4096
  | None => False
  end.
Proof. vm_compute. repeat split; discriminate. Qed.

(** C9, amended.  [unhook_all] undoes the entries in installation order: the
    entry installed last is undone last.  So when the same index, below
    65536, is installed twice in single-slot mode, the second entry captures
    the first replacement, and after [unhook_all] the slot holds that first
    replacement, which is not what the table held before the installs
    unless the two are equal. *)
Theorem unhook_all_installation_order
    (instance index d1 d2 o : Z) (w : world) :
  (∀ (h : c_vtable_hook.t) (e : c_vtable_hook.HookEntry) (w' : world),
     (c_vtable_hook.unhook_all (c_vtable_hook.emplace_back e h) w').2 =
     c_vtable_hook.unhook_entry e (c_vtable_hook.unhook_all h w').2) ∧
  (instance ≠ 0 → 0 ≤ index < 2 ^ 16 → 0 ≤ d1 < 2 ^ 32 →
   read_slot w instance index = Some o →
   ∃ h1 w1 h2 w2,
     c_vtable_hook.apply true index d1
       (c_vtable_hook.make instance c_vtable_hook.vfunc_swap) w
       = Some (o, h1, w1) ∧
     c_vtable_hook.apply true index d2 h1 w1 = Some (d1, h2, w2) ∧
     map c_vtable_hook.original (c_vtable_hook.m_hooks h2) = [o; d1] ∧
     c_vtable_hook.m_hooks (c_vtable_hook.unhook_all h2 w2).1 = [] ∧
     read_slot (c_vtable_hook.unhook_all h2 w2).2 instance index = Some d1 ∧
     (d1 ≠ o →
      read_slot (c_vtable_hook.unhook_all h2 w2).2 instance index ≠ Some o)).
Proof.
  split.
  - intros h e w'. simpl. apply unhook_loop_snoc.
  - intros Hi Hidx Hd1 (vt & T & Hvt & HT & Ho)%read_slot_Some.
    assert (Hlt : (Z.to_nat index < length T)%nat)
      by (by apply lookup_lt_Some in Ho).
    set (n := Z.to_nat index) in *.
    set (h0 := c_vtable_hook.make instance c_vtable_hook.vfunc_swap).
    set (e1 := c_vtable_hook.Entry index o
                 (Some (PLH.VFuncSwap vt index d1 (Some o))) None).
    set (e2 := c_vtable_hook.Entry index d1
                 (Some (PLH.VFuncSwap vt index (u64 d2) (Some d1))) None).
    set (T1 := <[n := d1]> T).
    set (T2 := <[n := u64 d2]> T1).
    assert (H1 : c_vtable_hook.apply true index d1 h0 w =
                 Some (o, c_vtable_hook.emplace_back e1 h0,
                       set_tables (insert vt T1) w)).
    { rewrite (apply_vfunc_commit _ _ _ _ vt T o o); try done.
      - unfold e1, T1, n. by rewrite u16_small, (u64_small d1).
      - by rewrite u16_small. }
    assert (H2 : c_vtable_hook.apply true index d2
                   (c_vtable_hook.emplace_back e1 h0)
                   (set_tables (insert vt T1) w) =
                 Some (d1,
                       c_vtable_hook.emplace_back e2
                         (c_vtable_hook.emplace_back e1 h0),
                       set_tables (insert vt T2) w)).
    { assert (HT1 : T1 !! n = Some d1)
        by (by apply list_lookup_insert_eq).
      rewrite (apply_vfunc_commit _ _ _ _ vt T1 d1 d1); try done.
      - unfold e2, T2, n. by rewrite u16_small, set_tables_insert_twice.
      - simpl. apply lookup_insert_eq.
      - by rewrite u16_small. }
    assert (Hundo :
      (c_vtable_hook.unhook_all
         (c_vtable_hook.emplace_back e2 (c_vtable_hook.emplace_back e1 h0))
         (set_tables (insert vt T2) w)).2 =
      set_tables (insert vt (<[n := d1]> (<[n := o]> T2))) w).
    { simpl. unfold e1 at 1.
      rewrite (unhook_entry_vfunc vt _ _ _ _ _ _ T2)
        by (simpl; apply lookup_insert_eq).
      unfold e2.
      rewrite (unhook_entry_vfunc vt _ _ _ _ _ _ (<[n := o]> T2))
        by (simpl; apply lookup_insert_eq).
      by rewrite !set_tables_insert_twice. }
    assert (Hfinal :
      read_slot (set_tables (insert vt (<[n := d1]> (<[n := o]> T2))) w)
        instance index = Some d1).
    { apply read_slot_Some. eexists vt, _. simpl. split; [done |].
      split; [apply lookup_insert_eq |].
      apply list_lookup_insert_eq.
      unfold T2, T1. by rewrite !length_insert. }
    exists (c_vtable_hook.emplace_back e1 h0), (set_tables (insert vt T1) w),
      (c_vtable_hook.emplace_back e2 (c_vtable_hook.emplace_back e1 h0)),
      (set_tables (insert vt T2) w).
    rewrite Hundo, Hfinal.
    repeat split; try done. congruence.
Qed.

Lemma unhook_all_installation_order_witness :
  ∃ h1 w1 h2 w2,
    c_vtable_hook.apply true 1 4096
      (c_vtable_hook.make 256 c_vtable_hook.vfunc_swap)
      (World {[256 := 1280]} {[1280 := [16; 17; 18]]} [])
      = Some (17, h1, w1) ∧
    c_vtable_hook.apply true 1 8192 h1 w1 = Some (4096, h2, w2) ∧
    map c_vtable_hook.original (c_vtable_hook.m_hooks h2) = [17; 4096] ∧
    c_vtable_hook.m_hooks (c_vtable_hook.unhook_all h2 w2).1 = [] ∧
    read_slot (c_vtable_hook.unhook_all h2 w2).2 256 1 = Some 4096 ∧
    (4096 ≠ 17 → read_slot (c_vtable_hook.unhook_all h2 w2).2 256 1 ≠ Some 17).
Proof.
  apply (proj2 (unhook_all_installation_order 256 1 4096 8192 17
                  (World {[256 := 1280]} {[1280 := [16; 17; 18]]} [])));
    [discriminate | lia | lia | reflexivity].
Defined.

(** * Further properties of [c_detour] *)

Section detour_more.

Implicit Types (d : c_detour.t) (w : world) (r : verdict) (dest : Z).

Lemma releases_record e w :
  releases (record_event e w) =
  (releases w + (if is_release e then 1 else 0))%nat.
Proof.
  unfold releases, record_event. cbn [journal].
  rewrite filter_app, length_app.
  destruct (is_release e) eqn:He.
  - rewrite filter_cons_True by (by rewrite He). done.
  - rewrite filter_cons_False by (rewrite He; by intros []). simpl. lia.
Qed.

Lemma unhook_idle d w :
  c_detour.m_detour d = None → c_detour.unhook d w = (d, w).
Proof. intros Hd. unfold c_detour.unhook. by rewrite Hd. Qed.

Lemma unhook_held d w s :
  c_detour.m_detour d = Some s →
  c_detour.unhook d w =
    (c_detour.Build (c_detour.m_src d) 0 None,
     record_event (ev_unHook (PLH.fnAddress s) (PLH.fnCallback s)) w).
Proof. intros Hd. unfold c_detour.unhook. by rewrite Hd. Qed.

(** What a call does to the balance of committed and released sessions. *)
Lemma step_balance s c :
  (commits (detour_step s c).2
   + releases s.2
   + sessions_held s.1)%nat =
  (commits s.2
   + releases (detour_step s c).2
   + sessions_held (detour_step s c).1)%nat.
Proof.
  unfold sessions_held.
  destruct s as [d w], c as [r dest | i dest |]; simpl.
  - destruct (c_detour.m_detour d) as [s |] eqn:Hd.
    + rewrite apply_installed by (rewrite Hd; eauto). simpl. by rewrite Hd.
    + destruct (decide (c_detour.m_src d = 0 ∨ dest = 0)) as [Hz | Hnz].
      * rewrite apply_null by done. simpl. by rewrite Hd.
      * rewrite apply_commit by tauto. simpl.
        destruct (hooked r) eqn:Hr; simpl;
          rewrite commits_record, releases_record; simpl; rewrite ?Hr; lia.
  - done.
  - destruct (c_detour.m_detour d) as [s |] eqn:Hd.
    + rewrite (unhook_held _ _ s) by done. simpl.
      rewrite commits_record, releases_record. simpl. lia.
    + rewrite unhook_idle by done. simpl. by rewrite Hd.
Qed.

Lemma run_balance cs s :
  (commits (detour_run cs s).2 + releases s.2 + sessions_held s.1)%nat =
  (commits s.2 + releases (detour_run cs s).2
   + sessions_held (detour_run cs s).1)%nat.
Proof.
  unfold detour_run. revert s.
  induction cs as [| c cs IH]; intros s; [done |].
  simpl. pose proof (IH (detour_step s c)). pose proof (step_balance s c). lia.
Qed.

(** Along a history of typed calls on a detour bound to a 32-bit source, the
    engine is only ever called with that source and a non-null callback, and
    a held session was built from such a pair. *)
Lemma step_addresses src s c :
  0 ≤ src < 2 ^ 32 → call_typed c →
  c_detour.m_src s.1 = src →
  (∀ x, c_detour.m_detour s.1 = Some x →
        PLH.fnAddress x = src ∧ PLH.fnCallback x ≠ 0 ∧ src ≠ 0) →
  Forall (λ e, (event_addresses e).1 = src ∧ (event_addresses e).2 ≠ 0 ∧ src ≠ 0)
    (journal s.2) →
  (∀ x, c_detour.m_detour (detour_step s c).1 = Some x →
        PLH.fnAddress x = src ∧ PLH.fnCallback x ≠ 0 ∧ src ≠ 0) ∧
  Forall (λ e, (event_addresses e).1 = src ∧ (event_addresses e).2 ≠ 0 ∧ src ≠ 0)
    (journal (detour_step s c).2).
Proof.
  intros Hsrc Hc Hs Hheld Hj.
  destruct s as [d w], c as [r dest | i dest |]; simpl in *.
  - destruct (c_detour.m_detour d) as [x |] eqn:Hd.
    + rewrite apply_installed by (rewrite Hd; eauto). simpl. by rewrite Hd.
    + destruct (decide (c_detour.m_src d = 0 ∨ dest = 0)) as [Hz | Hnz].
      * rewrite apply_null by done. simpl. by rewrite Hd.
      * rewrite apply_commit by tauto. simpl.
        assert (u64 (c_detour.m_src d) = src ∧ u64 dest ≠ 0 ∧ src ≠ 0)
          as (Ha & Hb & Hn).
        { unfold u64. rewrite !Z.mod_small by lia. lia. }
        destruct (hooked r); simpl; (split;
          [ intros x [= <-]; simpl; tauto || done
          | apply Forall_app; split; [done |];
            apply Forall_singleton; simpl; tauto ]).
  - done.
  - destruct (c_detour.m_detour d) as [x |] eqn:Hd.
    + rewrite (unhook_held _ _ x) by done. simpl. split; [done |].
      apply Forall_app; split; [done |]. apply Forall_singleton. simpl.
      by apply Hheld.
    + rewrite unhook_idle by done. simpl. by rewrite Hd.
Qed.

End detour_more.

(** X1. Removal is idempotent.  After any history of calls on a freshly
    constructed detour, [unhook] leaves it with no session and trampoline 0,
    and a second [unhook] (the destructor after a manual remove, say) changes
    neither the detour nor the world.  On a vtable hook, [unhook_all] leaves
    the entry list empty and a second [unhook_all] changes nothing. *)
Theorem removal_idempotent :
  (∀ (src0 : Z) (cs : list detour_call) (w0 : world),
     let s := detour_run cs (c_detour.make src0, w0) in
     c_detour.m_detour (c_detour.unhook s.1 s.2).1 = None ∧
     c_detour.m_trampoline (c_detour.unhook s.1 s.2).1 = 0 ∧
     c_detour.unhook (c_detour.unhook s.1 s.2).1 (c_detour.unhook s.1 s.2).2
       = c_detour.unhook s.1 s.2) ∧
  (∀ (h : c_vtable_hook.t) (w : world),
     c_vtable_hook.m_hooks (c_vtable_hook.unhook_all h w).1 = [] ∧
     c_vtable_hook.unhook_all (c_vtable_hook.unhook_all h w).1
       (c_vtable_hook.unhook_all h w).2
       = c_vtable_hook.unhook_all h w).
Proof.
  split; [| done].
  intros src0 cs w0 s.
  destruct (c_detour.m_detour s.1) as [x |] eqn:Hd.
  - by rewrite (unhook_held _ _ x).
  - rewrite unhook_idle by done. cbn [fst snd].
    split; [done |]. split; [| by rewrite unhook_idle].
    unfold s in *. by apply run_idle.
Qed.

(** X2. Install then remove is a round trip: on a detour with no session and
    trampoline 0, a committed [apply] followed by [unhook] gives back the very
    same object, and the engine has been asked exactly to hook and then to
    unhook the pair (source, destination). *)
Theorem detour_install_remove_round_trip
    (r : verdict) (dest : Z) (d : c_detour.t) (w : world) :
  c_detour.m_detour d = None → c_detour.m_trampoline d = 0 →
  c_detour.m_src d ≠ 0 → dest ≠ 0 → hooked r = true →
  let s1 := c_detour.apply r dest d w in
  let s2 := c_detour.unhook s1.1.2 s1.2 in
  s2.1 = d ∧
  journal s2.2 =
    journal w ++ [ev_hook (u64 (c_detour.m_src d)) (u64 dest) true;
                  ev_unHook (u64 (c_detour.m_src d)) (u64 dest)] ∧
  vptrs s2.2 = vptrs w ∧ tables s2.2 = tables w.
Proof.
  intros Hd Ht Hs Hn Hr. simpl.
  rewrite apply_commit by done. simpl. rewrite Hr. simpl.
  unfold c_detour.unhook. simpl. repeat split.
  - destruct d as [s t o]; simpl in *. by subst.
  - by rewrite <- app_assoc.
Qed.

Lemma detour_install_remove_round_trip_witness :
  let s1 := c_detour.apply (Verdict true 20480) 8192 (c_detour.make 4096)
              (World ∅ ∅ []) in
  let s2 := c_detour.unhook s1.1.2 s1.2 in
  s2.1 = c_detour.make 4096 ∧
  journal s2.2 = [] ++ [ev_hook (u64 4096) (u64 8192) true;
                        ev_unHook (u64 4096) (u64 8192)] ∧
  vptrs s2.2 = ∅ ∧ tables s2.2 = ∅.
Proof.
  apply (detour_install_remove_round_trip (Verdict true 20480) 8192
           (c_detour.make 4096) (World ∅ ∅ [])); simpl; (done || lia).
Defined.

(** X3. After a remove the engine decides anew: on a detour with nonzero
    source, [unhook] followed by [apply] with a nonzero destination calls the
    engine again and, if it commits, returns the new trampoline, whatever
    trampoline the detour held before. *)
Theorem detour_reinstall_after_remove
    (r : verdict) (dest : Z) (d : c_detour.t) (w : world) :
  c_detour.m_src d ≠ 0 → dest ≠ 0 → hooked r = true →
  let s1 := c_detour.unhook d w in
  let s2 := c_detour.apply r dest s1.1 s1.2 in
  s2.1.1 = u32 (tramp r) ∧
  c_detour.m_trampoline s2.1.2 = tramp r ∧
  c_detour.m_detour s2.1.2 =
    Some (PLH.X86Detour (u64 (c_detour.m_src d)) (u64 dest)) ∧
  commits s2.2 = S (commits w).
Proof.
  intros Hs Hn Hr. simpl.
  destruct (c_detour.m_detour d) as [x |] eqn:Hd.
  - rewrite (unhook_held _ _ x) by done. simpl.
    rewrite apply_commit by done. simpl. rewrite Hr. simpl.
    repeat split. rewrite !commits_record. simpl. lia.
  - rewrite unhook_idle by done. simpl.
    rewrite apply_commit by done. simpl. rewrite Hr. simpl.
    repeat split. rewrite commits_record. simpl. lia.
Qed.

Lemma detour_reinstall_after_remove_witness :
  let s1 := c_detour.unhook
              (c_detour.Build 4096 20480 (Some (PLH.X86Detour 4096 8192)))
              (World ∅ ∅ [ev_hook 4096 8192 true]) in
  let s2 := c_detour.apply (Verdict true 24576) 12288 s1.1 s1.2 in
  s2.1.1 = u32 24576 ∧
  c_detour.m_trampoline s2.1.2 = 24576 ∧
  c_detour.m_detour s2.1.2 = Some (PLH.X86Detour (u64 4096) (u64 12288)) ∧
  commits s2.2 = S (commits (World ∅ ∅ [ev_hook 4096 8192 true])).
Proof.
  apply (detour_reinstall_after_remove (Verdict true 24576) 12288
           (c_detour.Build 4096 20480 (Some (PLH.X86Detour 4096 8192)))
           (World ∅ ∅ [ev_hook 4096 8192 true])); simpl; (done || lia).
Defined.

(** X4. The source address is immutable: after any history of calls on a
    detour constructed with [src0], [src()] still returns [src0]. *)
Theorem detour_src_immutable
    (src0 : Z) (cs : list detour_call) (w0 : world) :
  c_detour.src (detour_run cs (c_detour.make src0, w0)).1 = src0.
Proof. unfold c_detour.src. by rewrite run_src. Qed.

(** X5. [original()] is what [apply] returned: after any history of calls on
    a freshly constructed detour, the value an [apply] returns is the value
    [original()] yields right after it. *)
Theorem detour_apply_returns_original
    (src0 : Z) (cs : list detour_call) (w0 : world) (r : verdict) (dest : Z) :
  let s := detour_run cs (c_detour.make src0, w0) in
  (c_detour.apply r dest s.1 s.2).1.1 =
  c_detour.original (c_detour.apply r dest s.1 s.2).1.2.
Proof.
  intros s. unfold c_detour.original.
  assert (Hidle : c_detour.m_detour s.1 = None → c_detour.m_trampoline s.1 = 0).
  { unfold s. by apply run_idle. }
  destruct (c_detour.m_detour s.1) as [x |] eqn:Hd.
  - by rewrite apply_installed by (rewrite Hd; eauto).
  - destruct (decide (c_detour.m_src s.1 = 0 ∨ dest = 0)) as [Hz | Hnz].
    + rewrite apply_null by done. simpl. by rewrite Hidle.
    + rewrite apply_commit by tauto. simpl. by destruct (hooked r).
Qed.

(** X6. A nonzero return certifies an installed detour: whenever [apply]
    returns a nonzero value, the detour holds a session afterwards. *)
Theorem detour_nonzero_return_installed
    (r : verdict) (dest : Z) (d : c_detour.t) (w : world) :
  (c_detour.apply r dest d w).1.1 ≠ 0 →
  is_Some (c_detour.m_detour (c_detour.apply r dest d w).1.2).
Proof.
  destruct (c_detour.m_detour d) as [x |] eqn:Hd.
  - rewrite apply_installed by (rewrite Hd; eauto). simpl. rewrite Hd. eauto.
  - destruct (decide (c_detour.m_src d = 0 ∨ dest = 0)) as [Hz | Hnz].
    + rewrite apply_null by done. simpl. done.
    + rewrite apply_commit by tauto. simpl.
      destruct (hooked r); simpl; [eauto | done].
Qed.

Lemma detour_nonzero_return_installed_witness :
  is_Some (c_detour.m_detour
             (c_detour.apply (Verdict true 20480) 8192 (c_detour.make 4096)
                (World ∅ ∅ [])).1.2).
Proof.
  apply (detour_nonzero_return_installed (Verdict true 20480) 8192
           (c_detour.make 4096) (World ∅ ∅ [])).
  vm_compute. discriminate.
Defined.

(** X7. With 32-bit trampolines a zero return means "not installed": if the
    trampoline a held session stored, and the one the engine hands back when
    it commits, lie strictly between 0 and 2^32, then [apply] returns 0
    exactly when the detour holds no session afterwards, and the stored
    trampoline stays in that range.  (The stored trampoline is 64 bits wide
    and the return value is its low 32 bits.) *)
Theorem detour_zero_return_iff_idle
    (r : verdict) (dest : Z) (d : c_detour.t) (w : world) :
  (is_Some (c_detour.m_detour d) → 0 < c_detour.m_trampoline d < 2 ^ 32) →
  (hooked r = true → 0 < tramp r < 2 ^ 32) →
  let s := c_detour.apply r dest d w in
  (s.1.1 = 0 ↔ c_detour.m_detour s.1.2 = None) ∧
  (is_Some (c_detour.m_detour s.1.2) →
   0 < c_detour.m_trampoline s.1.2 < 2 ^ 32 ∧
   s.1.1 = c_detour.m_trampoline s.1.2).
Proof.
  intros Hheld Hr. simpl.
  destruct (c_detour.m_detour d) as [x |] eqn:Hd.
  - rewrite apply_installed by (rewrite Hd; eauto). simpl. rewrite Hd.
    assert (0 < c_detour.m_trampoline d < 2 ^ 32) as Ht by eauto.
    unfold u32. rewrite Z.mod_small by lia.
    split; [split; [lia | done] | done].
  - destruct (decide (c_detour.m_src d = 0 ∨ dest = 0)) as [Hz | Hnz].
    + rewrite apply_null by done. simpl. rewrite Hd.
      split; [done | by intros [? ?]].
    + rewrite apply_commit by tauto. simpl.
      destruct (hooked r) eqn:Hok; simpl.
      * assert (0 < tramp r < 2 ^ 32) as Ht by eauto.
        unfold u32. rewrite Z.mod_small by lia.
        split; [split; [lia | done] | done].
      * split; [done | by intros [? ?]].
Qed.

Lemma detour_zero_return_iff_idle_witness :
  let s := c_detour.apply (Verdict true 20480) 8192 (c_detour.make 4096)
             (World ∅ ∅ []) in
  (s.1.1 = 0 ↔ c_detour.m_detour s.1.2 = None) ∧
  (is_Some (c_detour.m_detour s.1.2) →
   0 < c_detour.m_trampoline s.1.2 < 2 ^ 32 ∧
   s.1.1 = c_detour.m_trampoline s.1.2).
Proof.
  apply (detour_zero_return_iff_idle (Verdict true 20480) 8192
           (c_detour.make 4096) (World ∅ ∅ [])); simpl.
  - by intros [? ?].
  - lia.
Defined.

(** X8. Sessions are released exactly once: after any history of calls on a
    freshly constructed detour, the patches the engine has committed are the
    sessions it has been asked to undo plus the one the detour still holds,
    if any; so once the destructor has run nothing is left patched. *)
Theorem detour_sessions_balanced
    (src0 : Z) (cs : list detour_call) (w0 : world) :
  let s := detour_run cs (c_detour.make src0, w0) in
  (commits s.2 + releases w0)%nat =
  (commits w0 + releases s.2 + sessions_held s.1)%nat.
Proof.
  intros s. pose proof (run_balance cs (c_detour.make src0, w0)) as H.
  unfold sessions_held in H at 1. simpl in H. unfold s. lia.
Qed.

(** X9. The engine is never handed a null address: along any history of
    calls with 32-bit destinations on a detour constructed with a 32-bit
    source, starting from an empty journal, every engine call recorded was
    made with that source, which is nonzero, and with a nonzero callback. *)
Theorem detour_engine_never_null
    (src0 : Z) (cs : list detour_call) (vp : gmap Z Z) (tb : gmap Z (list Z)) :
  0 ≤ src0 < 2 ^ 32 → Forall call_typed cs →
  Forall (λ e, (event_addresses e).1 = src0 ∧ (event_addresses e).2 ≠ 0 ∧ src0 ≠ 0)
    (journal (detour_run cs (c_detour.make src0, World vp tb [])).2).
Proof.
  intros Hsrc Hcs.
  cut (∀ s,
         c_detour.m_src s.1 = src0 →
         (∀ x, c_detour.m_detour s.1 = Some x →
               PLH.fnAddress x = src0 ∧ PLH.fnCallback x ≠ 0 ∧ src0 ≠ 0) →
         Forall (λ e, (event_addresses e).1 = src0 ∧
                      (event_addresses e).2 ≠ 0 ∧ src0 ≠ 0) (journal s.2) →
         Forall (λ e, (event_addresses e).1 = src0 ∧
                      (event_addresses e).2 ≠ 0 ∧ src0 ≠ 0)
           (journal (detour_run cs s).2)).
  { intros Hgen. apply Hgen; simpl; [done | done | constructor]. }
  unfold detour_run. induction Hcs as [| c cs Hc _ IH]; intros s Hs Hheld Hj;
    [done |].
  simpl. destruct (step_addresses src0 s c) as [Hheld' Hj']; try done.
  apply IH; [by rewrite step_src | done | done].
Qed.

Lemma detour_engine_never_null_witness :
  Forall (λ e, (event_addresses e).1 = 4096 ∧ (event_addresses e).2 ≠ 0 ∧ 4096 ≠ 0)
    (journal (detour_run
                [call_apply (Verdict true 20480) 0;
                 call_apply (Verdict false 0) 8192;
                 call_apply (Verdict true 20480) 8192;
                 call_unhook]
                (c_detour.make 4096, World ∅ ∅ [])).2).
Proof.
  apply (detour_engine_never_null 4096 _ ∅ ∅); [lia |].
  repeat constructor; simpl; lia.
Defined.

(** * Further properties of [c_vtable_hook] *)

Section vtable_more.

Implicit Types (h : c_vtable_hook.t) (w : world) (T : list Z).

(** The two ways [apply] can return: nothing done, or one fitting entry
    appended for a slot that was read. *)
Lemma apply_shape ok index replacement h w r h' w' :
  c_vtable_hook.apply ok index replacement h w = Some (r, h', w') →
  (r = 0 ∧ h' = h ∧ w' = w) ∨
  (ok = true ∧ c_vtable_hook.m_instance h ≠ 0 ∧
   read_slot w (c_vtable_hook.m_instance h) index = Some r ∧
   ∃ e, h' = c_vtable_hook.emplace_back e h ∧
        entry_fits (c_vtable_hook.m_mode h) e ∧
        c_vtable_hook.index e = index ∧ c_vtable_hook.original e = r).
Proof.
  intros Happ.
  destruct (decide (c_vtable_hook.m_instance h = 0)) as [Hz | Hnz].
  { unfold c_vtable_hook.apply in Happ.
    rewrite bool_decide_eq_true_2 in Happ by done.
    injection Happ as <- <- <-. by left. }
  assert (Hread : is_Some (read_slot w (c_vtable_hook.m_instance h) index)).
  { apply (apply_defined ok index replacement h w Hnz). eauto. }
  destruct Hread as [o Hread].
  destruct (proj1 (read_slot_Some _ _ _ _) Hread) as (vt & T & Hvt & HT & Ho).
  rewrite (apply_read _ _ _ _ _ vt T o) in Happ by done.
  destruct (c_vtable_hook.m_mode h) eqn:Hm.
  - unfold PLH.VFuncSwapHook_hook in Happ. simpl in Happ.
    destruct ok; [| injection Happ as <- <- <-; by left].
    rewrite HT in Happ.
    destruct (T !! Z.to_nat (u16 index)) as [old |];
      [| injection Happ as <- <- <-; by left].
    injection Happ as <- <- <-. right.
    repeat split; try done. eexists. repeat split; simpl; eauto.
  - unfold PLH.VTableSwapHook_hook in Happ. simpl in Happ.
    destruct ok; [| injection Happ as <- <- <-; by left].
    destruct (vptrs w !! u64 (c_vtable_hook.m_instance h)) as [tp |];
      [| injection Happ as <- <- <-; by left].
    destruct (tables w !! tp) as [T' |];
      [| injection Happ as <- <- <-; by left].
    destruct (decide _); [| injection Happ as <- <- <-; by left].
    injection Happ as <- <- <-. right.
    repeat split; try done. eexists. repeat split; simpl; eauto.
Qed.

(** With a typed instance address and index, a call the engine is willing to
    commit appends an entry whenever it returns at all. *)
Lemma apply_true_entry index replacement h w r h' w' :
  c_vtable_hook.m_instance h ≠ 0 →
  0 ≤ c_vtable_hook.m_instance h < 2 ^ 32 → 0 ≤ index →
  c_vtable_hook.apply true index replacement h w = Some (r, h', w') →
  ∃ e, h' = c_vtable_hook.emplace_back e h ∧
       c_vtable_hook.index e = index ∧ c_vtable_hook.original e = r.
Proof.
  intros Hnz Hr Hidx Happ.
  assert (Hread : is_Some (read_slot w (c_vtable_hook.m_instance h) index)).
  { apply (apply_defined true index replacement h w Hnz). eauto. }
  destruct Hread as [o (vt & T & Hvt & HT & Ho)%read_slot_Some].
  destruct (c_vtable_hook.m_mode h) eqn:Hm.
  - destruct (lookup_lt_is_Some_2 T (Z.to_nat (u16 index))) as [old Hold];
      [by apply (slot16_in_bounds T index o) |].
    rewrite (apply_vfunc_commit _ _ _ _ vt T o old) in Happ by done.
    injection Happ as <- <- <-. eexists. by repeat split.
  - rewrite (apply_vtable_commit _ _ _ _ vt T o) in Happ by done.
    injection Happ as <- <- <-. eexists. by repeat split.
Qed.

Lemma read_slot_set_tables vt T' w instance j :
  read_slot (set_tables (insert vt T') w) instance j =
  tp ← vptrs w !! instance;
  if decide (tp = vt) then T' !! Z.to_nat j
  else T ← tables w !! tp; T !! Z.to_nat j.
Proof.
  unfold read_slot. simpl.
  destruct (vptrs w !! instance) as [tp |]; simpl; [| done].
  destruct (decide (tp = vt)) as [-> | Hne].
  - by rewrite lookup_insert_eq.
  - by rewrite lookup_insert_ne.
Qed.

Lemma fresh_table_no_object w : vptrs w !! PLH.fresh_table w = None.
Proof.
  apply not_elem_of_dom. unfold PLH.fresh_table.
  pose proof (is_fresh ({[0]} ∪ dom (tables w) ∪ dom (vptrs w))) as Hf.
  set_solver.
Qed.

Lemma fresh_table_not_null w : PLH.fresh_table w ≠ 0.
Proof.
  unfold PLH.fresh_table.
  pose proof (is_fresh ({[0]} ∪ dom (tables w) ∪ dom (vptrs w))) as Hf.
  set_solver.
Qed.

End vtable_more.

(** X10. Slot isolation, single-slot mode: a committed install at an index
    below 65536 leaves every table pointer alone, makes slot [index] of the
    shared table read the replacement through every object that uses that
    table, and changes no other slot of any table. *)
Theorem vfunc_swap_slot_isolation
    (index replacement : Z) (h : c_vtable_hook.t) (w : world)
    (vt : Z) (T : list Z) (o : Z) :
  c_vtable_hook.m_instance h ≠ 0 →
  c_vtable_hook.m_mode h = c_vtable_hook.vfunc_swap →
  0 ≤ index < 2 ^ 16 → 0 ≤ replacement < 2 ^ 32 →
  vptrs w !! c_vtable_hook.m_instance h = Some vt →
  tables w !! vt = Some T →
  T !! Z.to_nat index = Some o →
  ∃ h' w',
    c_vtable_hook.apply true index replacement h w = Some (o, h', w') ∧
    vptrs w' = vptrs w ∧
    (∀ instance, vptrs w !! instance = Some vt →
       read_slot w' instance index = Some replacement) ∧
    (∀ instance j, 0 ≤ j → j ≠ index →
       read_slot w' instance j = read_slot w instance j) ∧
    (∀ instance j, vptrs w !! instance ≠ Some vt →
       read_slot w' instance j = read_slot w instance j).
Proof.
  intros Hnz Hm Hidx Hrep Hvt HT Ho.
  eexists _, _. split.
  { apply (apply_vfunc_commit _ _ _ _ vt T o o); try done.
    by rewrite u16_small. }
  rewrite u16_small, u64_small by done.
  split; [done |]. split; [| split].
  - intros instance Hi. rewrite read_slot_set_tables, Hi. simpl.
    rewrite decide_True by done. apply list_lookup_insert_eq.
    by apply lookup_lt_Some in Ho.
  - intros instance j Hj Hne. rewrite read_slot_set_tables. unfold read_slot.
    destruct (vptrs w !! instance) as [tp |]; simpl; [| done].
    destruct (decide (tp = vt)) as [-> | Hneq]; [| done].
    rewrite HT. simpl. apply list_lookup_insert_ne. lia.
  - intros instance j Hi. rewrite read_slot_set_tables. unfold read_slot.
    destruct (vptrs w !! instance) as [tp |]; simpl; [| done].
    destruct (decide (tp = vt)) as [-> | Hneq]; [done | done].
Qed.

Lemma vfunc_swap_slot_isolation_witness :
  ∃ h' w',
    c_vtable_hook.apply true 1 4096
      (c_vtable_hook.make 256 c_vtable_hook.vfunc_swap)
      (World {[256 := 1280; 512 := 1280]} {[1280 := [16; 17; 18]]} [])
      = Some (17, h', w') ∧
    read_slot w' 512 1 = Some 4096 ∧
    read_slot w' 512 2 = Some 18.
Proof.
  destruct (vfunc_swap_slot_isolation 1 4096
              (c_vtable_hook.make 256 c_vtable_hook.vfunc_swap)
              (World {[256 := 1280; 512 := 1280]} {[1280 := [16; 17; 18]]} [])
              1280 [16; 17; 18] 17)
    as (h' & w' & Happ & _ & Hshared & Hother & _);
    [discriminate | reflexivity | lia | lia | reflexivity | reflexivity
    | reflexivity |].
  exists h', w'. split; [exact Happ |]. split.
  - apply Hshared. reflexivity.
  - rewrite Hother by lia. reflexivity.
Defined.

(** X11. Slot isolation, whole-table mode: a committed install at an index
    below 65536 mutates no live table; it points the hooked object at a new,
    non-null table in which slot [index] is the replacement and every other
    slot is as before, and every other object reads what it read before. *)
Theorem vtable_swap_instance_isolation
    (index replacement : Z) (h : c_vtable_hook.t) (w : world)
    (vt : Z) (T : list Z) (o : Z) :
  c_vtable_hook.m_instance h ≠ 0 →
  0 ≤ c_vtable_hook.m_instance h < 2 ^ 32 →
  c_vtable_hook.m_mode h = c_vtable_hook.vtable_swap →
  0 ≤ index < 2 ^ 16 → 0 ≤ replacement < 2 ^ 32 →
  vptrs w !! c_vtable_hook.m_instance h = Some vt →
  tables w !! vt = Some T →
  T !! Z.to_nat index = Some o →
  ∃ h' w' c,
    c_vtable_hook.apply true index replacement h w = Some (o, h', w') ∧
    vptrs w' !! c_vtable_hook.m_instance h = Some c ∧
    c ≠ 0 ∧ tables w !! c = None ∧
    (∀ tp T', tables w !! tp = Some T' → tables w' !! tp = Some T') ∧
    read_slot w' (c_vtable_hook.m_instance h) index = Some replacement ∧
    (∀ j, 0 ≤ j → j ≠ index →
       read_slot w' (c_vtable_hook.m_instance h) j =
       read_slot w (c_vtable_hook.m_instance h) j) ∧
    (∀ instance j v, instance ≠ c_vtable_hook.m_instance h →
       read_slot w instance j = Some v → read_slot w' instance j = Some v).
Proof.
  intros Hnz Hr Hm Hidx Hrep Hvt HT Ho.
  pose proof (fresh_table_unused w) as Hfresh.
  eexists _, _, (PLH.fresh_table w). split.
  { apply (apply_vtable_commit _ _ _ _ vt T o); try done. lia. }
  rewrite u16_small, u64_small by done.
  split; [simpl; apply lookup_insert_eq |].
  split; [apply fresh_table_not_null |]. split; [done |].
  split; [| split; [| split]].
  - intros tp T' Htp. simpl. rewrite lookup_insert_ne; [done |].
    intros <-. by rewrite Hfresh in Htp.
  - unfold read_slot. simpl. rewrite lookup_insert_eq. simpl.
    rewrite lookup_insert_eq. simpl. apply list_lookup_insert_eq.
    by apply lookup_lt_Some in Ho.
  - intros j Hj Hne. unfold read_slot. simpl.
    rewrite lookup_insert_eq, Hvt. simpl.
    rewrite lookup_insert_eq, HT. simpl.
    apply list_lookup_insert_ne. lia.
  - intros instance j v Hne (tp & T' & Htp & HT' & Hv)%read_slot_Some.
    apply read_slot_Some. exists tp, T'. simpl.
    rewrite lookup_insert_ne by done. split; [done |]. split; [| done].
    rewrite lookup_insert_ne; [done |].
    intros <-. by rewrite Hfresh in HT'.
Qed.

Lemma vtable_swap_instance_isolation_witness :
  ∃ h' w',
    c_vtable_hook.apply true 1 4096
      (c_vtable_hook.make 256 c_vtable_hook.vtable_swap)
      (World {[256 := 1280; 512 := 1280]} {[1280 := [16; 17; 18]]} [])
      = Some (17, h', w') ∧
    read_slot w' 256 1 = Some 4096 ∧
    read_slot w' 512 1 = Some 17.
Proof.
  destruct (vtable_swap_instance_isolation 1 4096
              (c_vtable_hook.make 256 c_vtable_hook.vtable_swap)
              (World {[256 := 1280; 512 := 1280]} {[1280 := [16; 17; 18]]} [])
              1280 [16; 17; 18] 17)
    as (h' & w' & c & Happ & _ & _ & _ & _ & Hown & _ & Hothers);
    [discriminate | simpl; lia | reflexivity | lia | lia | reflexivity
    | reflexivity | reflexivity |].
  exists h', w'. split; [exact Happ |]. split; [exact Hown |].
  apply Hothers; [discriminate | reflexivity].
Defined.

(** X12. The engine is handed the index as a 16-bit number: a committed
    install at an index of 65536 or more returns what slot [index] holds but
    redirects slot [index mod 65536]; slot [index] itself still reads its old
    value afterwards, in either mode. *)
Theorem vtable_apply_index_truncated
    (index replacement : Z) (h : c_vtable_hook.t) (w : world) (o : Z) :
  c_vtable_hook.m_instance h ≠ 0 →
  0 ≤ c_vtable_hook.m_instance h < 2 ^ 32 →
  2 ^ 16 ≤ index → 0 ≤ replacement < 2 ^ 32 →
  read_slot w (c_vtable_hook.m_instance h) index = Some o →
  ∃ h' w',
    c_vtable_hook.apply true index replacement h w = Some (o, h', w') ∧
    read_slot w' (c_vtable_hook.m_instance h) index = Some o ∧
    read_slot w' (c_vtable_hook.m_instance h) (index mod 2 ^ 16)
      = Some replacement.
Proof.
  intros Hnz Hr Hidx Hrep (vt & T & Hvt & HT & Ho)%read_slot_Some.
  pose proof (u16_range index) as H16.
  assert (Hlt : (Z.to_nat (u16 index) < length T)%nat)
    by (apply (slot16_in_bounds T index o); [lia | done]).
  assert (Hne : Z.to_nat (u16 index) ≠ Z.to_nat index) by lia.
  fold (u16 index).
  destruct (c_vtable_hook.m_mode h) eqn:Hm.
  - destruct (lookup_lt_is_Some_2 T (Z.to_nat (u16 index))) as [old Hold];
      [done |].
    eexists _, _. split.
    { by apply (apply_vfunc_commit _ _ _ _ vt T o old). }
    rewrite u64_small by done. rewrite !read_slot_set_tables, Hvt. simpl.
    rewrite !decide_True by done.
    split; [by rewrite list_lookup_insert_ne | by apply list_lookup_insert_eq].
  - eexists _, _. split.
    { apply (apply_vtable_commit _ _ _ _ vt T o); try done. lia. }
    rewrite u64_small by done. unfold read_slot. simpl.
    rewrite !lookup_insert_eq. simpl. rewrite !lookup_insert_eq. simpl.
    split; [by rewrite list_lookup_insert_ne | by apply list_lookup_insert_eq].
Qed.

Lemma vtable_apply_index_truncated_witness :
  ∃ h' w',
    c_vtable_hook.apply true 65536 4096
      (c_vtable_hook.make 256 c_vtable_hook.vfunc_swap)
      (World {[256 := 1280]} {[1280 := replicate (Z.to_nat 65536) 16 ++ [17]]} [])
      = Some (17, h', w') ∧
    read_slot w' 256 65536 = Some 17 ∧
    read_slot w' 256 (65536 mod 2 ^ 16) = Some 4096.
Proof.
  apply (vtable_apply_index_truncated 65536 4096
           (c_vtable_hook.make 256 c_vtable_hook.vfunc_swap)
           (World {[256 := 1280]}
              {[1280 := replicate (Z.to_nat 65536) 16 ++ [17]]} []) 17);
    simpl c_vtable_hook.m_instance; [discriminate | lia | lia | lia |].
  vm_compute. reflexivity.
Defined.

(** X13. A nonzero return certifies an installed slot hook: whenever [apply]
    returns a nonzero value, the engine committed, the value is what slot
    [index] held when the call began, and exactly one entry, with that index
    and that value and fitting the hook's mode, was appended. *)
Theorem vtable_nonzero_return_installed
    (ok : bool) (index replacement : Z) (h h' : c_vtable_hook.t) (w w' : world)
    (r : Z) :
  c_vtable_hook.apply ok index replacement h w = Some (r, h', w') →
  r ≠ 0 →
  ok = true ∧
  read_slot w (c_vtable_hook.m_instance h) index = Some r ∧
  ∃ e, c_vtable_hook.m_hooks h' = c_vtable_hook.m_hooks h ++ [e] ∧
       c_vtable_hook.index e = index ∧
       c_vtable_hook.original e = r ∧
       entry_fits (c_vtable_hook.m_mode h) e.
Proof.
  intros Happ Hr.
  destruct (apply_shape _ _ _ _ _ _ _ _ Happ)
    as [(-> & _) | (Hok & _ & Hread & e & -> & Hfit & Hi & Ho)]; [done |].
  split; [done |]. split; [done |]. exists e. by repeat split.
Qed.

Lemma vtable_nonzero_return_installed_witness :
  true = true ∧
  read_slot (World {[256 := 1280]} {[1280 := [16; 17; 18]]} []) 256 1 = Some 17 ∧
  ∃ e,
    c_vtable_hook.m_hooks
      (c_vtable_hook.emplace_back
         (c_vtable_hook.Entry 1 17
            (Some (PLH.VFuncSwap 1280 (u16 1) (u64 4096) (Some 17))) None)
         (c_vtable_hook.make 256 c_vtable_hook.vfunc_swap))
      = [] ++ [e] ∧
    c_vtable_hook.index e = 1 ∧ c_vtable_hook.original e = 17 ∧
    entry_fits c_vtable_hook.vfunc_swap e.
Proof.
  apply (vtable_nonzero_return_installed true 1 4096
           (c_vtable_hook.make 256 c_vtable_hook.vfunc_swap) _
           (World {[256 := 1280]} {[1280 := [16; 17; 18]]} [])
           (set_tables (insert 1280 (<[Z.to_nat (u16 1) := u64 4096]> [16; 17; 18]))
              (World {[256 := 1280]} {[1280 := [16; 17; 18]]} []))
           17).
  - reflexivity.
  - discriminate.
Defined.

Section vtable_histories.

Implicit Types (h : c_vtable_hook.t) (w : world).

Lemma vtable_step_keeps inst m h w h' w' c :
  c_vtable_hook.m_instance h = inst → c_vtable_hook.m_mode h = m →
  Forall (entry_fits m) (c_vtable_hook.m_hooks h) →
  vtable_step (Some (h, w)) c = Some (h', w') →
  c_vtable_hook.m_instance h' = inst ∧ c_vtable_hook.m_mode h' = m ∧
  Forall (entry_fits m) (c_vtable_hook.m_hooks h').
Proof.
  intros Hi Hm Hes Hstep. destruct c as [ok index replacement |]; simpl in Hstep.
  - destruct (c_vtable_hook.apply ok index replacement h w)
      as [[[r h1] w1] |] eqn:Happ; [| done].
    injection Hstep as -> ->.
    destruct (apply_shape _ _ _ _ _ _ _ _ Happ)
      as [(_ & -> & _) | (_ & _ & _ & e & -> & Hfit & _)]; [done |].
    simpl. repeat split; try done.
    apply Forall_app. split; [done |]. apply Forall_singleton. by rewrite <- Hm.
  - injection Hstep as <- <-. simpl. by repeat split.
Qed.

Lemma vtable_run_none cs : foldl vtable_step None cs = None.
Proof. induction cs as [| c cs IH]; [done | apply IH]. Qed.

End vtable_histories.

(** X14. A vtable hook never changes target or strategy: after any history
    of [apply] and [unhook_all] calls that stays within live memory, the hook
    still has the instance address and the mode it was constructed with, and
    every recorded entry holds the handle of that mode and no other. *)
Theorem vtable_hook_strategy_fixed
    (instance : Z) (m : c_vtable_hook.mode) (cs : list vtable_call)
    (w w' : world) (h' : c_vtable_hook.t) :
  vtable_run cs (c_vtable_hook.make instance m, w) = Some (h', w') →
  c_vtable_hook.m_instance h' = instance ∧
  c_vtable_hook.m_mode h' = m ∧
  Forall (entry_fits m) (c_vtable_hook.m_hooks h').
Proof.
  unfold vtable_run.
  cut (∀ h w, c_vtable_hook.m_instance h = instance →
              c_vtable_hook.m_mode h = m →
              Forall (entry_fits m) (c_vtable_hook.m_hooks h) →
              foldl vtable_step (Some (h, w)) cs = Some (h', w') →
              c_vtable_hook.m_instance h' = instance ∧
              c_vtable_hook.m_mode h' = m ∧
              Forall (entry_fits m) (c_vtable_hook.m_hooks h')).
  { intros Hgen. apply Hgen; simpl; [done | done | constructor]. }
  induction cs as [| c cs IH]; intros h0 w0 Hi Hm Hes Hrun.
  - simpl in Hrun. by injection Hrun as <- <-.
  - change (foldl vtable_step (vtable_step (Some (h0, w0)) c) cs = Some (h', w'))
      in Hrun.
    destruct (vtable_step (Some (h0, w0)) c) as [[h1 w1] |] eqn:Hstep.
    + destruct (vtable_step_keeps instance m h0 w0 h1 w1 c) as (? & ? & ?);
        try done.
      by apply (IH h1 w1).
    + by rewrite vtable_run_none in Hrun.
Qed.

Lemma vtable_hook_strategy_fixed_witness :
  c_vtable_hook.m_instance
    (c_vtable_hook.Build 256 c_vtable_hook.vfunc_swap
       [c_vtable_hook.Entry 2 18
          (Some (PLH.VFuncSwap 1280 2 8192 (Some 18))) None]) = 256 ∧
  c_vtable_hook.m_mode
    (c_vtable_hook.Build 256 c_vtable_hook.vfunc_swap
       [c_vtable_hook.Entry 2 18
          (Some (PLH.VFuncSwap 1280 2 8192 (Some 18))) None])
    = c_vtable_hook.vfunc_swap ∧
  Forall (entry_fits c_vtable_hook.vfunc_swap)
    (c_vtable_hook.m_hooks
       (c_vtable_hook.Build 256 c_vtable_hook.vfunc_swap
          [c_vtable_hook.Entry 2 18
             (Some (PLH.VFuncSwap 1280 2 8192 (Some 18))) None])).
Proof.
  apply (vtable_hook_strategy_fixed 256 c_vtable_hook.vfunc_swap
           [vcall_apply true 1 4096; vcall_apply false 0 4096;
            vcall_unhook_all; vcall_apply true 2 8192]
           (World {[256 := 1280]} {[1280 := [16; 17; 18]]} [])
           (World {[256 := 1280]} {[1280 := [16; 17; 8192]]} [])).
  vm_compute. reflexivity.
Defined.

(** X15. Teardown after two whole-table installs leaves the object on a
    freed table: in whole-table mode, after two committed installs at
    in-bounds indices, [unhook_all] empties the entry list but leaves the
    object pointing at the first duplicate, not at its original table, and
    that duplicate is no longer live, so no slot can be read through the
    object any more. *)
Theorem vtable_swap_double_teardown_dangles
    (instance i1 d1 i2 d2 : Z) (w : world) (vt : Z) (T : list Z) :
  instance ≠ 0 → 0 ≤ instance < 2 ^ 32 →
  vptrs w !! instance = Some vt → tables w !! vt = Some T →
  0 ≤ i1 < Z.of_nat (length T) → 0 ≤ i2 < Z.of_nat (length T) →
  ∃ origs h2 w2,
    install_all [(i1, d1); (i2, d2)]
      (c_vtable_hook.make instance c_vtable_hook.vtable_swap) w
      = Some (origs, h2, w2) ∧
    length (c_vtable_hook.m_hooks h2) = 2%nat ∧
    c_vtable_hook.m_hooks (c_vtable_hook.unhook_all h2 w2).1 = [] ∧
    vptrs (c_vtable_hook.unhook_all h2 w2).2 !! instance
      = Some (PLH.fresh_table w) ∧
    PLH.fresh_table w ≠ vt ∧
    tables (c_vtable_hook.unhook_all h2 w2).2 !! PLH.fresh_table w = None ∧
    (∀ j, read_slot (c_vtable_hook.unhook_all h2 w2).2 instance j = None).
Proof.
  intros Hnz Hr Hvt HT Hi1 Hi2.
  destruct (lookup_lt_is_Some_2 T (Z.to_nat i1)) as [o1 Ho1]; [lia |].
  set (h0 := c_vtable_hook.make instance c_vtable_hook.vtable_swap).
  set (c1 := PLH.fresh_table w).
  set (T1 := <[Z.to_nat (u16 i1) := u64 d1]> T).
  set (w1 := set_vptrs (insert instance c1) (set_tables (insert c1 T1) w)).
  destruct (lookup_lt_is_Some_2 T1 (Z.to_nat i2)) as [o2 Ho2];
    [unfold T1; rewrite length_insert; lia |].
  assert (H1 : c_vtable_hook.apply true i1 d1 h0 w =
               Some (o1,
                     c_vtable_hook.emplace_back
                       (c_vtable_hook.Entry i1 o1 None
                          (Some (PLH.VTableSwap instance (u16 i1) (u64 d1)
                                   (Some vt) (Some c1)))) h0,
                     w1)).
  { rewrite (apply_vtable_commit i1 d1 h0 w vt T o1); try done. lia. }
  set (h1 := c_vtable_hook.emplace_back _ h0) in H1.
  assert (H2 : c_vtable_hook.apply true i2 d2 h1 w1 =
               Some (o2,
                     c_vtable_hook.emplace_back
                       (c_vtable_hook.Entry i2 o2 None
                          (Some (PLH.VTableSwap instance (u16 i2) (u64 d2)
                                   (Some c1) (Some (PLH.fresh_table w1))))) h1,
                     set_vptrs (insert instance (PLH.fresh_table w1))
                       (set_tables
                          (insert (PLH.fresh_table w1)
                             (<[Z.to_nat (u16 i2) := u64 d2]> T1)) w1))).
  { rewrite (apply_vtable_commit i2 d2 h1 w1 c1 T1 o2); try done; simpl;
      try apply lookup_insert_eq. lia. }
  eexists _, _, _. split.
  { simpl. rewrite H1, H2. reflexivity. }
  assert (Hc1 : c1 ≠ vt).
  { intros Heq. pose proof (fresh_table_unused w) as Hf.
    fold c1 in Hf. rewrite Heq, HT in Hf. done. }
  assert (Hgone :
    delete (PLH.fresh_table w1)
      (delete c1
         (<[PLH.fresh_table w1 := <[Z.to_nat (u16 i2) := u64 d2]> T1]>
            (<[c1 := T1]> (tables w)))) !! c1 = None).
  { rewrite lookup_delete. case_decide; [done |]. apply lookup_delete_eq. }
  split; [done |]. split; [done |].
  split; [simpl; apply lookup_insert_eq |].
  split; [done |]. split; [exact Hgone |].
  intros j. unfold read_slot.
  change (vptrs (c_vtable_hook.unhook_all _ _).2 !! instance)
    with (<[instance := c1]>
            (<[instance := vt]>
               (<[instance := PLH.fresh_table w1]>
                  (<[instance := c1]> (vptrs w)))) !! instance).
  rewrite lookup_insert_eq. simpl.
  change (tables (c_vtable_hook.unhook_all _ _).2 !! c1)
    with (delete (PLH.fresh_table w1)
            (delete c1
               (<[PLH.fresh_table w1 := <[Z.to_nat (u16 i2) := u64 d2]> T1]>
                  (<[c1 := T1]> (tables w)))) !! c1).
  by rewrite Hgone.
Qed.

Lemma vtable_swap_double_teardown_dangles_witness :
  ∃ origs h2 w2,
    install_all [(1, 4096); (2, 8192)]
      (c_vtable_hook.make 256 c_vtable_hook.vtable_swap)
      (World {[256 := 1280]} {[1280 := [16; 17; 18]]} [])
      = Some (origs, h2, w2) ∧
    read_slot (c_vtable_hook.unhook_all h2 w2).2 256 0 = None.
Proof.
  destruct (vtable_swap_double_teardown_dangles 256 1 4096 2 8192
              (World {[256 := 1280]} {[1280 := [16; 17; 18]]} [])
              1280 [16; 17; 18])
    as (origs & h2 & w2 & Hrun & _ & _ & _ & _ & _ & Hread);
    [discriminate | lia | reflexivity | reflexivity | simpl; lia | simpl; lia |].
  exists origs, h2, w2. split; [exact Hrun | apply Hread].
Defined.

(** X16. No dedup guard: a run of installs the engine commits, on a hook
    with a nonzero instance address, records one entry per call, in call
    order, each with the index it was called with and the value it
    returned, whether or not an index repeats. *)
Theorem install_all_records_every_call
    (reqs : list (Z * Z)) (h h1 : c_vtable_hook.t) (w w1 : world)
    (origs : list Z) :
  c_vtable_hook.m_instance h ≠ 0 →
  0 ≤ c_vtable_hook.m_instance h < 2 ^ 32 →
  Forall (λ req : Z * Z, 0 ≤ req.1) reqs →
  install_all reqs h w = Some (origs, h1, w1) →
  ∃ es,
    c_vtable_hook.m_hooks h1 = c_vtable_hook.m_hooks h ++ es ∧
    map c_vtable_hook.index es = map fst reqs ∧
    map c_vtable_hook.original es = origs.
Proof.
  revert h w origs.
  induction reqs as [| [i d] reqs IH]; intros h w origs Hnz Hr Hb Hrun.
  - injection Hrun as <- <- <-. exists []. by rewrite app_nil_r.
  - apply Forall_cons in Hb as [Hi Hb]. simpl in Hi, Hrun.
    destruct (c_vtable_hook.apply true i d h w) as [[[o h'] w'] |] eqn:Happ;
      [| done].
    destruct (install_all reqs h' w') as [[[os h2] w2] |] eqn:Hrest; [| done].
    injection Hrun as <- <- <-.
    destruct (apply_true_entry _ _ _ _ _ _ _ Hnz Hr Hi Happ)
      as (e & -> & Hei & Heo).
    destruct (IH (c_vtable_hook.emplace_back e h) w' os Hnz Hr Hb Hrest)
      as (es & Hes & Hidx & Ho).
    exists (e :: es). simpl in Hes. rewrite Hes, <- app_assoc. simpl.
    by rewrite Hei, Heo, Hidx, Ho.
Qed.

Lemma install_all_records_every_call_witness :
  ∃ es,
    c_vtable_hook.m_hooks
      (c_vtable_hook.Build 256 c_vtable_hook.vfunc_swap
         [c_vtable_hook.Entry 1 17
            (Some (PLH.VFuncSwap 1280 1 4096 (Some 17))) None;
          c_vtable_hook.Entry 1 4096
            (Some (PLH.VFuncSwap 1280 1 8192 (Some 4096))) None])
      = [] ++ es ∧
    map c_vtable_hook.index es = [1; 1] ∧
    map c_vtable_hook.original es = [17; 4096].
Proof.
  apply (install_all_records_every_call [(1, 4096); (1, 8192)]
           (c_vtable_hook.make 256 c_vtable_hook.vfunc_swap) _
           (World {[256 := 1280]} {[1280 := [16; 17; 18]]} [])
           (World {[256 := 1280]} {[1280 := [16; 8192; 18]]} [])).
  - discriminate.
  - simpl. lia.
  - repeat constructor; simpl; lia.
  - vm_compute. reflexivity.
Defined.
